(** * QLA test data server: task pool, task registry and upload parser

    A shallow embedding of [test-dataserver.py] (the threaded server) and of
    the task derivation of [orig/webserver2.py] (its single-threaded
    ancestor).  Python 2 [str] values are byte strings and are modelled by
    [string]; the class attributes of [QLARqstHandler] form an explicit
    state record; the operating system (clock, directory listings, files)
    is an explicit world record threaded through a small exception monad. *)

From Stdlib Require Import String Ascii List ZArith Lia Bool.
From stdpp Require Import base option gmap strings pretty.
Import ListNotations.
Open Scope string_scope.

(** ** Byte strings *)

Module Bytes.

Definition LF : ascii := "010"%char.
Definition CR : ascii := "013"%char.
(** The double quote character (code 34). *)
Definition DQ : ascii := Ascii false true false false false true false false.

Definition str1 (c : ascii) : string := String c EmptyString.

(** [len(s)] *)
Definition len (s : string) : Z := Z.of_nat (String.length s).

(** [s.startswith(p)] *)
Fixpoint startswith (p s : string) : bool :=
  match p, s with
  | EmptyString, _ => true
  | String a p', String b s' => if Ascii.eqb a b then startswith p' s' else false
  | String _ _, EmptyString => false
  end.

(** [needle in hay] on byte strings: substring containment. *)
Fixpoint contains (needle hay : string) : bool :=
  if startswith needle hay then true
  else match hay with
       | EmptyString => false
       | String _ hay' => contains needle hay'
       end.

(** [s[0:-1]]: everything but the last byte (the empty string stays empty). *)
Fixpoint drop_last (s : string) : string :=
  match s with
  | EmptyString => EmptyString
  | String _ EmptyString => EmptyString
  | String a s' => String a (drop_last s')
  end.

(** The last byte of [s], if any. *)
Fixpoint last_byte (s : string) : option ascii :=
  match s with
  | EmptyString => None
  | String a EmptyString => Some a
  | String _ s' => last_byte s'
  end.

(** [s.endswith(c)] for a one-byte suffix. *)
Definition endswith_byte (c : ascii) (s : string) : bool :=
  match last_byte s with
  | Some a => Ascii.eqb a c
  | None => false
  end.

(** The first [n] bytes of [s]. *)
Fixpoint take (n : nat) (s : string) : string :=
  match n, s with
  | O, _ => EmptyString
  | S n', String a s' => String a (take n' s')
  | S _, EmptyString => EmptyString
  end.

(** [s.split(sep)] for a one-byte separator: the pieces between the
    separators, at least one piece. *)
Fixpoint split_on (sep : ascii) (s : string) : list string :=
  match s with
  | EmptyString => [EmptyString]
  | String a s' =>
      if Ascii.eqb a sep then EmptyString :: split_on sep s'
      else match split_on sep s' with
           | piece :: rest => String a piece :: rest
           | [] => [str1 a]
           end
  end.

End Bytes.
Import Bytes.

(** ** The fragment of Python's [re] the server uses

    Patterns are sequences of single-character atoms, each possibly under a
    greedy star, with capturing parentheses.  [.] matches any byte but the
    line feed (no [DOTALL] flag is given anywhere in the program).  The
    matcher backtracks the way [re] does: a star first tries to take one
    more byte and gives bytes back only when the rest of the pattern
    fails. *)

Module Re.

Inductive atom : Type :=
  | Chr (c : ascii)          (* a literal byte *)
  | Any.                     (* [.] *)

Inductive item : Type :=
  | One (a : atom)
  | Star (a : atom)          (* [a*], greedy *)
  | GOpen                    (* [(] *)
  | GClose.                  (* [)] *)

Definition atom_matches (a : atom) (c : ascii) : bool :=
  match a with
  | Chr d => Ascii.eqb c d
  | Any => negb (Ascii.eqb c LF)
  end.

(** [re.compile]: reads a pattern string of the fragment. *)
Fixpoint compile (p : string) : list item :=
  match p with
  | EmptyString => []
  | String c p' =>
      let a := if Ascii.eqb c "."%char then Any else Chr c in
      match p' with
      | String "*"%char p'' =>
          Star a :: match compile p' with _ :: r => r | [] => [] end
      | _ =>
          (if Ascii.eqb c "("%char then GOpen
           else if Ascii.eqb c ")"%char then GClose
           else One a) :: compile p'
      end
  end.

(** A successful match: the text left after the match, and the texts that
    were left at each parenthesis, in pattern order. *)
Record hit : Type := Hit { marks : list string; rest : string }.

Definition mark (s : string) (h : hit) : hit :=
  Hit (s :: marks h) (rest h).

(** Match pattern [p] at the start of [s]. *)
Fixpoint match_here (p : list item) : string -> option hit :=
  match p with
  | [] => fun s => Some (Hit [] s)
  | One a :: p' => fun s =>
      match s with
      | String c s' => if atom_matches a c then match_here p' s' else None
      | EmptyString => None
      end
  | Star a :: p' =>
      fix star (s : string) : option hit :=
        match s with
        | String c s' =>
            if atom_matches a c then
              match star s' with
              | Some h => Some h
              | None => match_here p' s
              end
            else match_here p' s
        | EmptyString => match_here p' s
        end
  | GOpen :: p' => fun s => mark s <$> match_here p' s
  | GClose :: p' => fun s => mark s <$> match_here p' s
  end.

(** Number of bytes a hit at [s] consumed. *)
Definition consumed (s : string) (h : hit) : nat :=
  String.length s - String.length (rest h).

(** The text of the first group of a hit (the whole match when the pattern
    has no group), as [re.findall] reports it. *)
Definition group_text (s : string) (h : hit) : string :=
  match marks h with
  | o :: c :: _ => take (String.length o - String.length c) o
  | _ => take (consumed s h) s
  end.

(** [re.sub(pattern, repl, s)] for a replacement without escapes: scan left
    to right, replace each leftmost non-overlapping match.  [skip] counts
    the bytes of the current position that belong to the previous match;
    [adjacent] tells that the previous match ended right here (Python 2
    replaces an empty match only when it is not adjacent to the previous
    match). *)
Fixpoint sub_from (p : list item) (repl : string) (s : string)
    (skip : nat) (adjacent : bool) : string :=
  match skip with
  | S k =>
      match s with
      | String _ s' => sub_from p repl s' k (Nat.eqb k 0)
      | EmptyString => EmptyString
      end
  | O =>
      match match_here p s with
      | Some h =>
          match consumed s h with
          | O =>
              (if adjacent then EmptyString else repl) ++
              match s with
              | String c s' => String c (sub_from p repl s' 0 false)
              | EmptyString => EmptyString
              end
          | S k =>
              repl ++
              match s with
              | String _ s' => sub_from p repl s' k (Nat.eqb k 0)
              | EmptyString => EmptyString
              end
          end
      | None =>
          match s with
          | String c s' => String c (sub_from p repl s' 0 false)
          | EmptyString => EmptyString
          end
      end
  end.

Definition sub (pattern repl s : string) : string :=
  sub_from (compile pattern) repl s 0 false.

(** [re.findall(pattern, s)] for a pattern with at most one group. *)
Fixpoint findall_from (p : list item) (s : string)
    (skip : nat) (adjacent : bool) : list string :=
  match skip with
  | S k =>
      match s with
      | String _ s' => findall_from p s' k (Nat.eqb k 0)
      | EmptyString => []
      end
  | O =>
      match match_here p s with
      | Some h =>
          match consumed s h with
          | O =>
              (if adjacent then [] else [group_text s h]) ++
              match s with
              | String _ s' => findall_from p s' 0 false
              | EmptyString => []
              end
          | S k =>
              group_text s h ::
              match s with
              | String _ s' => findall_from p s' k (Nat.eqb k 0)
              | EmptyString => []
              end
          end
      | None =>
          match s with
          | String _ s' => findall_from p s' 0 false
          | EmptyString => []
          end
      end
  end.

Definition findall (pattern s : string) : list string :=
  findall_from (compile pattern) s 0 false.

(** [re.search(pattern, s) is not None] *)
Fixpoint found (p : list item) (s : string) : bool :=
  match match_here p s with
  | Some _ => true
  | None => match s with
            | EmptyString => false
            | String _ s' => found p s'
            end
  end.

Definition search (pattern s : string) : bool := found (compile pattern) s.

End Re.

(** ** Calendar time: [time.gmtime] and [time.strftime] *)

Module Time.

Record struct_time : Type := StructTime {
  tm_year : Z; tm_mon : Z; tm_mday : Z;
  tm_hour : Z; tm_min : Z; tm_sec : Z
}.

(** [gmtime(t)] for [t] whole seconds since the epoch: the proleptic
    Gregorian calendar, counted in eras of 400 years from 0000-03-01. *)
Definition gmtime (t : Z) : struct_time :=
  let days := (t / 86400)%Z in
  let secs := (t mod 86400)%Z in
  let z := (days + 719468)%Z in
  let era := (z / 146097)%Z in
  let doe := (z - era * 146097)%Z in
  let yoe := ((doe - doe / 1460 + doe / 36524 - doe / 146096) / 365)%Z in
  let doy := (doe - (365 * yoe + yoe / 4 - yoe / 100))%Z in
  let mp := ((5 * doy + 2) / 153)%Z in
  let d := (doy - (153 * mp + 2) / 5 + 1)%Z in
  let m := (if (mp <? 10)%Z then mp + 3 else mp - 9)%Z in
  let y := (yoe + era * 400 + (if (m <=? 2)%Z then 1 else 0))%Z in
  StructTime y m d (secs / 3600) (secs mod 3600 / 60) (secs mod 60).

(** Decimal text of an integer, as [str] and [format] give it. *)
Definition decimal (x : Z) : string := pretty x.

(** Two digits, zero padded. *)
Definition two_digits (x : Z) : string :=
  if (x <? 10)%Z then "0" ++ decimal x else decimal x.

Definition directive (c : ascii) (t : struct_time) : string :=
  if Ascii.eqb c "Y" then decimal (tm_year t)
  else if Ascii.eqb c "m" then two_digits (tm_mon t)
  else if Ascii.eqb c "d" then two_digits (tm_mday t)
  else if Ascii.eqb c "H" then two_digits (tm_hour t)
  else if Ascii.eqb c "M" then two_digits (tm_min t)
  else if Ascii.eqb c "S" then two_digits (tm_sec t)
  else String "%" (str1 c).

(** [strftime(format, t)] for the directives the server uses. *)
Fixpoint strftime (format : string) (t : struct_time) : string :=
  match format with
  | String "%" (String c format') => directive c t ++ strftime format' t
  | String a format' => String a (strftime format' t)
  | EmptyString => EmptyString
  end.

End Time.
Import Time.

(** ** The machine: operating system, handler class, connection *)

(** What a handler sends on its connection. *)
Record task_params : Type := TaskParams {
  task_id : string;
  in_file : string;
  out_file : string;
  log_file : string;
  retrieve_path : string
}.

Inductive wire : Type :=
  | Status (code : Z)                    (* [send_response] *)
  | Header (key value : string)          (* [send_header] *)
  | EndHeaders                           (* [end_headers] *)
  | Body (data : string)                 (* [wfile.write] of text *)
  | BodyJson (d : task_params).          (* [wfile.write(json.dumps(d))] *)

(** The operating system as the server sees it.  [clock] lists the
    successive readings of [time()] in whole seconds and [listing] the
    successive results of [glob.glob]; [ticks] and [polls] count the
    readings made so far.  [files] maps a path to the bytes stored there,
    [creatable] tells where a file may be created, [handles] lists the
    files open for writing. *)
Record world : Type := World {
  clock : nat -> Z;
  ticks : nat;
  listing : nat -> string -> list string;
  polls : nat;
  files : gmap string string;
  creatable : string -> bool;
  handles : list string
}.

(** The class attributes of [QLARqstHandler], shared by all requests. *)
Record handler_class : Type := HandlerClass {
  rootdir : string;                      (* [m_opts.rootdir] *)
  generate_dummy_files : bool;
  pool_of_files : list string;
  obs_id : Z;
  task_inputs : gmap string string;
  current_file : string
}.

Definition input_files_dir : string := "input".
Definition processed_files_dir : string := "processed".

(** One request: the pieces of [self] the handlers read, and its two
    streams.  [translated] is the value of [self.translate_path(self.path)]
    and [content_length] the integer in the [content-length] header. *)
Record request : Type := Request {
  plisttext : string;
  content_length : Z;
  translated : string;
  rfile : string;
  wfile : list wire
}.

Record machine : Type := Machine {
  os : world;
  cls : handler_class;
  self : request
}.

Inductive exn : Type :=
  | IndexError
  | KeyError (key : string)
  | OSError (path : string)
  | IOError (path : string).

(** How a handler ends: it returns, it raises, or it is still running when
    the fuel of its polling loops is spent. *)
Inductive outcome (A : Type) : Type :=
  | Done (a : A) (m : machine)
  | Raised (e : exn) (m : machine)
  | Spinning.
Arguments Done {A} a m.
Arguments Raised {A} e m.
Arguments Spinning {A}.

Definition M (A : Type) : Type := machine -> outcome A.

Definition ret {A} (a : A) : M A := fun m => Done a m.
Definition raise {A} (e : exn) : M A := fun m => Raised e m.
Definition spin {A} : M A := fun _ => Spinning.
Definition bind {A B} (c : M A) (k : A -> M B) : M B :=
  fun m => match c m with
           | Done a m' => k a m'
           | Raised e m' => Raised e m'
           | Spinning => Spinning
           end.

Declare Scope py_scope.
Delimit Scope py_scope with py.
Notation "x <- c ;; k" := (bind c (fun x => k))
  (at level 100, c at next level, right associativity) : py_scope.
Notation "c ;;; k" := (bind c (fun _ => k))
  (at level 100, right associativity) : py_scope.
Open Scope py_scope.

Definition the_class : M handler_class := fun m => Done (cls m) m.
Definition the_world : M world := fun m => Done (os m) m.
Definition the_request : M request := fun m => Done (self m) m.
Definition set_class (f : handler_class -> handler_class) : M unit :=
  fun m => Done tt (Machine (os m) (f (cls m)) (self m)).
Definition set_world (f : world -> world) : M unit :=
  fun m => Done tt (Machine (f (os m)) (cls m) (self m)).
Definition set_request (f : request -> request) : M unit :=
  fun m => Done tt (Machine (os m) (cls m) (f (self m))).

(** [for x in l: body(x)] *)
Fixpoint for_each {A} (l : list A) (body : A -> M unit) : M unit :=
  match l with
  | [] => ret tt
  | x :: l' => body x ;;; for_each l' body
  end.

(** *** Field updates *)

Definition with_pool (p : list string) (c : handler_class) : handler_class :=
  HandlerClass (rootdir c) (generate_dummy_files c) p (obs_id c)
               (task_inputs c) (current_file c).
Definition with_obs_id (n : Z) (c : handler_class) : handler_class :=
  HandlerClass (rootdir c) (generate_dummy_files c) (pool_of_files c) n
               (task_inputs c) (current_file c).
Definition with_task_inputs (t : gmap string string) (c : handler_class)
    : handler_class :=
  HandlerClass (rootdir c) (generate_dummy_files c) (pool_of_files c)
               (obs_id c) t (current_file c).
Definition with_current_file (f : string) (c : handler_class) : handler_class :=
  HandlerClass (rootdir c) (generate_dummy_files c) (pool_of_files c)
               (obs_id c) (task_inputs c) f.

Definition with_ticks (n : nat) (w : world) : world :=
  World (clock w) n (listing w) (polls w) (files w) (creatable w) (handles w).
Definition with_polls (n : nat) (w : world) : world :=
  World (clock w) (ticks w) (listing w) n (files w) (creatable w) (handles w).
Definition with_files (f : gmap string string) (w : world) : world :=
  World (clock w) (ticks w) (listing w) (polls w) f (creatable w) (handles w).
Definition with_handles (h : list string) (w : world) : world :=
  World (clock w) (ticks w) (listing w) (polls w) (files w) (creatable w) h.

Definition with_rfile (r : string) (q : request) : request :=
  Request (plisttext q) (content_length q) (translated q) r (wfile q).
Definition with_wfile (o : list wire) (q : request) : request :=
  Request (plisttext q) (content_length q) (translated q) (rfile q) o.

(** ** Operating system calls *)

Module Os.

(** [time()], truncated to whole seconds. *)
Definition time : M Z :=
  w <- the_world ;;
  set_world (with_ticks (S (ticks w))) ;;;
  ret (clock w (ticks w)).

(** [glob.glob(pattern)] *)
Definition glob (pattern : string) : M (list string) :=
  w <- the_world ;;
  set_world (with_polls (S (polls w))) ;;;
  ret (listing w (polls w) pattern).

(** [os.path.basename(p)]: what follows the last slash. *)
Fixpoint basename (p : string) : string :=
  match p with
  | EmptyString => EmptyString
  | String c p' => if contains "/" p then basename p' else p
  end.

(** [os.path.join(a, b)] (POSIX, two arguments). *)
Definition path_join (a b : string) : string :=
  if startswith "/" b then b
  else if orb (String.eqb a EmptyString) (endswith_byte "/" a) then a ++ b
  else a ++ "/" ++ b.

(** [os.rename(src, dst)]: one atomic move; [OSError] when the source is
    missing or the destination cannot be created. *)
Definition rename (src dst : string) : M unit :=
  w <- the_world ;;
  match files w !! src with
  | Some data =>
      if creatable w dst
      then set_world (with_files (<[dst := data]> (delete src (files w))))
      else raise (OSError dst)
  | None => raise (OSError src)
  end.

(** [open(path, 'wb')]: creates or truncates the file; [IOError] when it
    cannot be created. *)
Definition open_wb (path : string) : M unit :=
  w <- the_world ;;
  if creatable w path
  then set_world (fun w => with_handles (path :: handles w)
                             (with_files (<[path := EmptyString]> (files w)) w))
  else raise (IOError path).

(** [out.write(data)] on the file opened at [path]. *)
Definition write (path data : string) : M unit :=
  set_world (fun w =>
    with_files (<[path := default EmptyString (files w !! path) ++ data]> (files w)) w).

(** [out.close()] *)
Definition close (path : string) : M unit :=
  set_world (fun w =>
    with_handles (filter (fun h => h ≠ path) (handles w)) w).

End Os.

(** ** The request handler of [test-dataserver.py] *)

Module Handler.

Definition emit (e : wire) : M unit :=
  set_request (fun q => with_wfile (wfile q ++ [e]) q).

(** [send_content(code, mimetype, more)].  The status line is 200 whatever
    [code] says, and the headers are ended only under a non-empty
    [mimetype]. *)
Definition send_content (code : Z) (mimetype : string) (more : bool) : M unit :=
  emit (Status 200) ;;;
  if (0 <? len mimetype)%Z then
    emit (Header "Content-type" mimetype) ;;;
    if negb more then emit EndHeaders else ret tt
  else ret tt.

(** The bytes [hdu.writeto] stores for the primary HDU holding
    [np.arange(100.0)]; only its first header card is kept here. *)
Definition primary_hdu : string := "SIMPLE  =                    T".

(** [create_dummy_file(file_name)] *)
Definition create_dummy_file (file_name : string) : M unit :=
  c <- the_class ;;
  let full_file_name := rootdir c ++ "/" ++ file_name in
  w <- the_world ;;
  if creatable w full_file_name
  then set_world (with_files (<[full_file_name := primary_hdu]> (files w)))
  else raise (IOError full_file_name).

(** [pool.append(file_name)]; [pool] is the class attribute itself. *)
Definition pool_append (file_name : string) : M unit :=
  set_class (fun c => with_pool (pool_of_files c ++ [file_name]) c).

(** The body of the two nested loops of the synthetic mode. *)
Definition new_dummy_file (x dither : Z) : M unit :=
  t <- Os.time ;;
  let datetime_tag :=
    strftime "%Y%m%dT%H%M%S" (gmtime (t + 100000000 + x * 100)) in
  c <- the_class ;;
  let file_name :=
    "EUC_LE1_VIS-W-" ++ decimal (obs_id c) ++ "-" ++ decimal dither ++ "_"
      ++ datetime_tag ++ ".0Z.fits" in
  pool_append file_name ;;;
  create_dummy_file (input_files_dir ++ "/" ++ file_name) ;;;
  set_class (fun c => with_obs_id (obs_id c + 1) c).

(** [range(a, b)] *)
Definition range (a b : Z) : list Z :=
  map (fun i => (a + Z.of_nat i)%Z) (seq 0 (Z.to_nat (b - a))).

(** One pass of the directory scan: list the input folder, append every
    base name. *)
Definition scan_once : M unit :=
  c <- the_class ;;
  entries <- Os.glob (rootdir c ++ "/" ++ input_files_dir ++ "/*.fits") ;;
  for_each entries (fun entry => pool_append (Os.basename entry)).

(** [while len(pool) < 1: <scan>]; every pass costs one unit of fuel. *)
Fixpoint scan_until_found (fuel : nat) : M unit :=
  c <- the_class ;;
  if (Z.of_nat (length (pool_of_files c)) <? 1)%Z
  then match fuel with
       | O => spin
       | S fuel' => scan_once ;;; scan_until_found fuel'
       end
  else ret tt.

(** [get_new_input_files(pool)], called with the class pool. *)
Definition get_new_input_files (fuel : nat) : M unit :=
  c <- the_class ;;
  if generate_dummy_files c then
    for_each (range 0 10) (fun x =>
      for_each (range 1 5) (fun dither => new_dummy_file x dither))
  else
    scan_until_found fuel.

(** [pool_of_files.pop(0)] *)
Definition pool_pop : M string :=
  c <- the_class ;;
  match pool_of_files c with
  | [] => raise IndexError
  | x :: pool' => set_class (with_pool pool') ;;; ret x
  end.

Definition out_file_of (in_file : string) : string :=
  Re.sub ".fits" ".json" (Re.sub "LE1_VIS" "QLA_LE1-VIS" in_file).

Definition log_file_of (out_file : string) : string :=
  Re.sub ".json" ".log" (Re.sub "LE1-VIS" "LE1-VIS-LOG" out_file).

(** [do_get_task()].  The local list [pool_of_files = []] of the source is
    never read: every access goes to the class attribute. *)
Definition do_get_task (fuel : nat) : M unit :=
  c <- the_class ;;
  (if (Z.of_nat (length (pool_of_files c)) <? 1)%Z
   then get_new_input_files fuel else ret tt) ;;;
  in_file <- pool_pop ;;
  let out_file := out_file_of in_file in
  let log_file := log_file_of out_file in
  t <- Os.time ;;
  let new_task_id := strftime "QDTsrv_%Y%m%d-%H%M%S" (gmtime t) in
  set_class (with_current_file in_file) ;;;
  set_class (fun c => with_task_inputs (<[new_task_id := in_file]> (task_inputs c)) c) ;;;
  let task_params :=
    TaskParams new_task_id in_file out_file log_file input_files_dir in
  send_content 200 "application/json" false ;;;
  emit (BodyJson task_params).

(** [do_end_task(task_id)] *)
Definition do_end_task (task_id : string) : M unit :=
  c <- the_class ;;
  match task_inputs c !! task_id with
  | None => raise (KeyError task_id)
  | Some task_file =>
      let from_file := "./" ++ input_files_dir ++ "/" ++ task_file in
      let to_file := "./" ++ processed_files_dir ++ "/" ++ task_file in
      Os.rename from_file to_file ;;;
      send_content 200 "text/html" false
  end.

(** [self.rfile.readline()]: the bytes up to and including the next line
    feed, or all that is left; the empty string at the end of the stream. *)
Fixpoint line_of (s : string) : string * string :=
  match s with
  | EmptyString => (EmptyString, EmptyString)
  | String c s' =>
      if Ascii.eqb c LF then (str1 c, s')
      else let (l, r) := line_of s' in (String c l, r)
  end.

Definition readline : M string :=
  q <- the_request ;;
  let (l, r) := line_of (rfile q) in
  set_request (with_rfile r) ;;;
  ret l.

(** [try: c except IOError: h] *)
Definition except_IOError {A} (c h : M A) : M A :=
  fun m => match c m with
           | Raised (IOError _) m' => h m'
           | o => o
           end.

(** The pattern of the [Content-Disposition] line. *)
Definition disposition_pattern : string :=
  "Content-Disposition.*name=" ++ str1 DQ ++ "file" ++ str1 DQ
    ++ "; filename=" ++ str1 DQ ++ "(.*)" ++ str1 DQ.

(** [preline[0:-1]], and once more when a carriage return is then last. *)
Definition strip_pending (preline : string) : string :=
  let preline := drop_last preline in
  if endswith_byte CR preline then drop_last preline else preline.

(** The [while remainbytes > 0] loop of [deal_post_data]; every pass costs
    one unit of fuel. *)
Fixpoint upload_loop (fuel : nat) (fn boundary : string)
    (remainbytes : Z) (preline : string) : M (bool * string) :=
  if (0 <? remainbytes)%Z then
    match fuel with
    | O => spin
    | S fuel' =>
        line <- readline ;;
        let remainbytes := (remainbytes - len line)%Z in
        if contains boundary line then
          let preline := strip_pending preline in
          Os.write fn preline ;;;
          Os.close fn ;;;
          ret (true, "File '" ++ fn ++ "' upload success!")
        else
          Os.write fn preline ;;;
          upload_loop fuel' fn boundary remainbytes line
    end
  else ret (false, "Unexpect Ends of data.").

(** [deal_post_data()].  The group and user names the [except] branch
    gathers are only logged. *)
Definition deal_post_data (fuel : nat) : M (bool * string) :=
  q <- the_request ;;
  match split_on "=" (plisttext q) with
  | _ :: boundary :: _ =>
      let remainbytes := content_length q in
      line <- readline ;;
      let remainbytes := (remainbytes - len line)%Z in
      if negb (contains boundary line) then
        ret (false, "Content NOT begin with boundary")
      else
        line <- readline ;;
        let remainbytes := (remainbytes - len line)%Z in
        match Re.findall disposition_pattern line with
        | [] => ret (false, "Can't find out file name...")
        | fn0 :: _ =>
            let path := translated q in
            let fn := Os.path_join path fn0 in
            line <- readline ;;
            let remainbytes := (remainbytes - len line)%Z in
            opened <- except_IOError (Os.open_wb fn ;;; ret true) (ret false) ;;
            if negb opened then
              ret (false,
                "Can't create file to write, do you have permission to write?")
            else
              preline <- readline ;;
              let remainbytes := (remainbytes - len preline)%Z in
              upload_loop fuel fn boundary remainbytes preline
        end
  | _ => raise IndexError
  end.

End Handler.

(** ** The request handler of [orig/webserver2.py] *)

Module Orig.

Definition send_content (code : Z) (type : string) : M unit :=
  Handler.emit (Status 200) ;;;
  if (0 <? len type)%Z then
    Handler.emit (Header "Content-type" type) ;;;
    Handler.emit EndHeaders
  else ret tt.

Definition create_dummy_file (file_name : string) : M unit :=
  c <- the_class ;;
  let full_file_name := rootdir c ++ "/" ++ file_name in
  w <- the_world ;;
  if creatable w full_file_name
  then set_world (with_files (<[full_file_name := Handler.primary_hdu]> (files w)))
  else raise (IOError full_file_name).

(** [get_new_input_files(pool)]: always synthetic. *)
Definition get_new_input_files : M unit :=
  for_each (Handler.range 0 10) (fun x =>
    for_each (Handler.range 1 5) (fun dither =>
      t <- Os.time ;;
      let datetime_tag :=
        strftime "%Y%m%dT%H%M%S" (gmtime (t + 100000000 + x * 100)) in
      c <- the_class ;;
      let file_name :=
        "EUC_LE1_VIS-W-" ++ decimal (obs_id c) ++ "-" ++ decimal dither ++ "_"
          ++ datetime_tag ++ ".0Z.fits" in
      Handler.pool_append file_name ;;;
      create_dummy_file (input_files_dir ++ "/" ++ file_name) ;;;
      set_class (fun c => with_obs_id (obs_id c + 1) c))).

Definition out_file_of (in_file : string) : string :=
  Re.sub ".fits" ".json" (Re.sub "LE1_VIS" "QLA_LE1-VIS" in_file).

Definition log_file_of (out_file : string) : string :=
  Re.sub ".json" ".log" (Re.sub "LE1_VIS" "LE1-VIS-LOG" out_file).

(** [do_get_task()]: no registry in this version. *)
Definition do_get_task : M unit :=
  c <- the_class ;;
  (if (Z.of_nat (length (pool_of_files c)) <? 1)%Z
   then get_new_input_files else ret tt) ;;;
  in_file <- Handler.pool_pop ;;
  let out_file := out_file_of in_file in
  let log_file := log_file_of out_file in
  t <- Os.time ;;
  let new_task_id := strftime "QDTsrv_%Y%m%d-%H%M%S" (gmtime t) in
  let task_params :=
    TaskParams new_task_id in_file out_file log_file input_files_dir in
  send_content 200 "application/json" ;;;
  Handler.emit (BodyJson task_params).

End Orig.

(** ** The naming rule as the specification words it *)

Module Rule.

(** [s.endswith(suffix)] *)
Definition endswith (suffix s : string) : bool :=
  let n := String.length s - String.length suffix in
  andb (String.length suffix <=? String.length s)%nat
       (String.eqb (String.substring n (String.length suffix) s) suffix).

(** Every occurrence of the literal text [old] replaced by [new], left to
    right, without overlap. *)
Fixpoint replace_from (old new s : string) (skip : nat) : string :=
  match s with
  | EmptyString => EmptyString
  | String c s' =>
      match skip with
      | S k => replace_from old new s' k
      | O => if startswith old s
             then new ++ replace_from old new s' (String.length old - 1)
             else String c (replace_from old new s' 0)
      end
  end.

Definition replace (old new s : string) : string := replace_from old new s 0.

(** The extension [ext] at the end of [s] changed to [ext']. *)
Definition change_extension (ext ext' s : string) : string :=
  if endswith ext s
  then take (String.length s - String.length ext) s ++ ext'
  else s.

(** "out_file is in_file with the input tag replaced by the output tag and
    the extension changed to .json" *)
Definition out_file (in_file : string) : string :=
  change_extension ".fits" ".json" (replace "LE1_VIS" "QLA_LE1-VIS" in_file).

(** "log_file is out_file with a tag substituted and the extension changed
    to .log" *)
Definition log_file (out_file : string) : string :=
  change_extension ".json" ".log" (replace "LE1-VIS" "LE1-VIS-LOG" out_file).

End Rule.

(** ** Serving requests one after another *)

(** One request on a fresh connection: the handler runs with an empty
    output stream and the bytes it sent are the reply. *)
Definition serve (handler : M unit) : M (list wire) :=
  set_request (with_wfile []) ;;;
  handler ;;;
  q <- the_request ;;
  ret (wfile q).


(** The task descriptor carried by a reply, if any. *)
Fixpoint descriptor (reply : list wire) : option task_params :=
  match reply with
  | [] => None
  | BodyJson d :: _ => Some d
  | _ :: reply' => descriptor reply'
  end.

(** The reply to a successful [get_task] that serves [x] at clock reading
    [t]. *)
Definition task_reply (x : string) (t : Z) : list wire :=
  [ Status 200; Header "Content-type" "application/json"; EndHeaders;
    BodyJson (TaskParams (strftime "QDTsrv_%Y%m%d-%H%M%S" (gmtime t)) x
                (Handler.out_file_of x)
                (Handler.log_file_of (Handler.out_file_of x))
                input_files_dir) ].

(** The class state after [get_task] served [x] from the front of the pool
    at clock reading [t]. *)
Definition issued (x : string) (t : Z) (pool' : list string)
    (c : handler_class) : handler_class :=
  HandlerClass (rootdir c) (generate_dummy_files c) pool' (obs_id c)
    (<[strftime "QDTsrv_%Y%m%d-%H%M%S" (gmtime t) := x]> (task_inputs c)) x.

(** ** Sample machines *)

Module Sample.

(** A clock that starts on 2017-07-14 02:40:00 UTC and advances one second
    per reading. *)
Definition clock0 (n : nat) : Z := (1500000000 + Z.of_nat n)%Z.

(** An input folder that is empty for two scans and then holds two files. *)
Definition listing0 (k : nat) (pattern : string) : list string :=
  if (k <? 2)%nat then []
  else ["/srv/input/EUC_LE1_VIS-W-1.fits"; "/srv/input/EUC_LE1_VIS-W-2.fits"].

Definition files0 : gmap string string :=
  {[ "./input/EUC_LE1_VIS-W-1.fits" := "first";
     "./input/EUC_LE1_VIS-W-2.fits" := "second" ]}.

Definition world0 : world :=
  World clock0 0 listing0 0 files0 (fun _ => true) [].

(** The class attributes as the class body initialises them. *)
Definition class0 : handler_class :=
  HandlerClass "/srv" false [] 12000 ∅ EmptyString.

Definition request0 : request := Request EmptyString 0 EmptyString EmptyString [].

Definition machine0 : machine := Machine world0 class0 request0.

(** The same server with two files already in the pool. *)
Definition seeded : machine :=
  Machine world0
    (with_pool ["EUC_LE1_VIS-W-1.fits"; "EUC_LE1_VIS-W-2.fits"] class0)
    request0.

End Sample.

(** ** Notions used in the statements *)


(** The reply of [send_content()] with its defaults: a status line, the
    content type header, the end of the headers, and nothing after. *)
Definition bare_200 : list wire :=
  [Status 200; Header "Content-type" "text/html"; EndHeaders].

Definition input_path (f : string) : string := "./input/" ++ f.
Definition processed_path (f : string) : string := "./processed/" ++ f.

(** The sample server after one [get_task]. *)
Definition after_first_task : machine :=
  match serve (Handler.do_get_task 0) Sample.seeded with
  | Done _ m => m
  | _ => Sample.seeded
  end.

(** An explicit error reply: the handler returns and its reply carries a
    status line with a 4xx or 5xx code. *)
Definition error_reply (reply : list wire) : Prop :=
  exists code, Status code ∈ reply /\ (400 <= code < 600)%Z.

(** What [do_get_task] does once the pool has been looked after. *)
Definition issue_task : M unit :=
  in_file <- Handler.pool_pop ;;
  let out_file := Handler.out_file_of in_file in
  let log_file := Handler.log_file_of out_file in
  t <- Os.time ;;
  let new_task_id := strftime "QDTsrv_%Y%m%d-%H%M%S" (gmtime t) in
  set_class (with_current_file in_file) ;;;
  set_class (fun c => with_task_inputs (<[new_task_id := in_file]> (task_inputs c)) c) ;;;
  Handler.send_content 200 "application/json" false ;;;
  Handler.emit (BodyJson
    (TaskParams new_task_id in_file out_file log_file input_files_dir)).

(** The argument of [glob.glob] in the directory scan. *)
Definition scan_pattern (c : handler_class) : string :=
  rootdir c ++ "/" ++ input_files_dir ++ "/*.fits".




Definition CRLF : string := String CR (str1 LF).

(** The lines [readline] returns one after another until the stream is at
    its end. *)
Fixpoint lines_of (s : string) : list string :=
  match s with
  | EmptyString => []
  | String c s' =>
      if Ascii.eqb c LF then str1 c :: lines_of s'
      else match lines_of s' with
           | [] => [str1 c]
           | l :: ls => String c l :: ls
           end
  end.

(** A body whose first line is not the boundary line. *)
Definition stray_request : request :=
  Request "; boundary=B" 9 "/srv/up" ("HELLO" ++ CRLF ++ CRLF) [].

(** The bytes of a list of lines. *)
Definition total_len (ls : list string) : Z :=
  fold_right (fun l acc => (len l + acc)%Z) 0%Z ls.

(** The line does not hold the boundary token. *)
Definition no_boundary (boundary line : string) : Prop :=
  contains boundary line = false.

(** The world after [open(fn, 'wb')] succeeded. *)
Definition opened (fn : string) (w : world) : world :=
  with_handles (fn :: handles w) (with_files (<[fn := EmptyString]> (files w)) w).

(** Line number [i] of the body, empty when the body has fewer lines. *)
Definition body_line (q : request) (i : nat) : string :=
  nth i (lines_of (rfile q)) EmptyString.

(** The count left when the loop starts: the declared length less the
    boundary line, the disposition line, the line after it and the first
    pending line. *)
Definition count_at_loop (q : request) : Z :=
  (content_length q - len (body_line q 0) - len (body_line q 1)
     - len (body_line q 2) - len (body_line q 3))%Z.

(** An upload cut short: the declared 84 bytes end with the content and
    the closing boundary line never comes. *)
Definition cut_request : request :=
  Request "; boundary=B" 84 "/srv/up"
    ("--B" ++ CRLF
     ++ "Content-Disposition: form-data; name=" ++ str1 DQ ++ "file" ++ str1 DQ
     ++ "; filename=" ++ str1 DQ ++ "a.txt" ++ str1 DQ ++ CRLF
     ++ CRLF ++ "HELLO" ++ CRLF ++ "WORLD" ++ CRLF) [].

(** The world after the final write of [data] to [fn] and its close. *)
Definition finished (fn data : string) (w : world) : world :=
  with_handles (filter (fun h => h <> fn) (handles w))
    (with_files (<[fn := default EmptyString (files w !! fn) ++ data]> (files w)) w).

(** The body of the documented upload example. *)
Definition happy_body : string :=
  "--B" ++ CRLF
  ++ "Content-Disposition: form-data; name=" ++ str1 DQ ++ "file" ++ str1 DQ
  ++ "; filename=" ++ str1 DQ ++ "a.txt" ++ str1 DQ ++ CRLF
  ++ CRLF
  ++ "HELLO" ++ CRLF
  ++ "--B--" ++ CRLF.

(** The upload of [happy_body] with boundary [B] and the matching
    [Content-Length], posted to a path that translates to [dir]. *)
Definition happy_request (dir : string) : request :=
  Request "; boundary=B" (len happy_body) dir happy_body [].

(** *** Searching a text for the input tag *)

(** The input tag of the file names. *)
Definition input_tag : string := "LE1_VIS".

(** Progress of a left-to-right search for [input_tag]: [q] bytes of the tag
    have just been read, then [c] comes. *)
Definition advance (q : nat) (c : ascii) : nat :=
  match String.get q input_tag with
  | Some d => if Ascii.eqb c d then S q
              else if Ascii.eqb c "L" then 1 else 0
  | None => if Ascii.eqb c "L" then 1 else 0
  end.

(** Reading [s] after [q] bytes of the tag never completes the tag. *)
Fixpoint tag_free (q : nat) (s : string) : bool :=
  match s with
  | EmptyString => true
  | String c s' =>
      let q' := advance q c in
      if (q' =? 7)%nat then false else tag_free q' s'
  end.

(** The items of a pattern without special characters. *)
Fixpoint literal (w : string) : list Re.item :=
  match w with
  | EmptyString => []
  | String c w' => Re.One (Re.Chr c) :: literal w'
  end.

(** [s[n:]] *)
Fixpoint skip_bytes (n : nat) (s : string) : string :=
  match n, s with
  | S n', String _ s' => skip_bytes n' s'
  | _, _ => s
  end.

(** ** Two [get_task] requests on two threads

    [ThreadedHTTPServer] gives every connection a thread of its own, and
    the handler takes no lock.  The two threads are modelled by interleaving
    the statements of [do_get_task]: one step is one statement (one test,
    one call of [glob], one [append], one [pop], one assignment), and a
    schedule tells which thread makes the next step.  The synthetic refill
    is taken in one step. *)

Module Threads.

(** Where a thread stands in [do_get_task], with its local variables. *)
Inductive local : Type :=
  | AtCheck                               (* [if len(pool_of_files) < 1] *)
  | AtRefill                              (* entering [get_new_input_files] *)
  | AtWhile                               (* [while len(pool) < 1] *)
  | AtAppend (entries : list string)      (* [for entry in ...: pool.append] *)
  | AtPop                                 (* [in_file = pool_of_files.pop(0)] *)
  | AtClock (in_file : string)            (* [new_task_id = strftime(...)] *)
  | AtCurrent (in_file new_task_id : string)
  | AtRegister (in_file new_task_id : string)
  | AtSend (in_file new_task_id : string)
  | Finished (d : task_params)
  | Failed (e : exn).

Definition shared : Type := world * handler_class.

(** One statement of a thread. *)
Definition step (s : shared) (l : local) : shared * local :=
  let (w, c) := s in
  match l with
  | AtCheck =>
      if (Z.of_nat (length (pool_of_files c)) <? 1)%Z
      then (s, AtRefill) else (s, AtPop)
  | AtRefill =>
      if generate_dummy_files c then
        match Handler.get_new_input_files 0
                (Machine w c (Request EmptyString 0 EmptyString EmptyString [])) with
        | Done _ m => ((os m, cls m), AtPop)
        | Raised e m => ((os m, cls m), Failed e)
        | Spinning => (s, AtRefill)
        end
      else (s, AtWhile)
  | AtWhile =>
      if (Z.of_nat (length (pool_of_files c)) <? 1)%Z
      then ((with_polls (S (polls w)) w, c),
            AtAppend (listing w (polls w) (scan_pattern c)))
      else (s, AtPop)
  | AtAppend [] => (s, AtWhile)
  | AtAppend (entry :: entries) =>
      ((w, with_pool (pool_of_files c ++ [Os.basename entry]) c),
       AtAppend entries)
  | AtPop =>
      match pool_of_files c with
      | [] => (s, Failed IndexError)
      | x :: pool' => ((w, with_pool pool' c), AtClock x)
      end
  | AtClock x =>
      ((with_ticks (S (ticks w)) w, c),
       AtCurrent x (strftime "QDTsrv_%Y%m%d-%H%M%S" (gmtime (clock w (ticks w)))))
  | AtCurrent x id => ((w, with_current_file x c), AtRegister x id)
  | AtRegister x id =>
      ((w, with_task_inputs (<[id := x]> (task_inputs c)) c), AtSend x id)
  | AtSend x id =>
      (s, Finished (TaskParams id x (Handler.out_file_of x)
                      (Handler.log_file_of (Handler.out_file_of x))
                      input_files_dir))
  | Finished d => (s, Finished d)
  | Failed e => (s, Failed e)
  end.

Record config : Type := Config {
  state : shared;
  thread1 : local;
  thread2 : local
}.

(** The scheduler lets thread 1 ([true]) or thread 2 ([false]) make a
    step. *)
Definition turn (first : bool) (cf : config) : config :=
  if first
  then let (s, l) := step (state cf) (thread1 cf) in Config s l (thread2 cf)
  else let (s, l) := step (state cf) (thread2 cf) in Config s (thread1 cf) l.

Fixpoint run (schedule : list bool) (cf : config) : config :=
  match schedule with
  | [] => cf
  | first :: schedule' => run schedule' (turn first cf)
  end.

(** Both threads about to serve a [get_task]. *)
Definition start (w : world) (c : handler_class) : config :=
  Config (w, c) AtCheck AtCheck.

(** The work item a thread has been sent. *)
Definition delivered (l : local) : option string :=
  match l with
  | Finished d => Some (in_file d)
  | _ => None
  end.

(** The work item a thread has taken out of the pool. *)
Definition holding (l : local) : option string :=
  match l with
  | AtClock x | AtCurrent x _ | AtRegister x _ | AtSend x _ => Some x
  | Finished d => Some (in_file d)
  | _ => None
  end.

End Threads.

Import Threads.

(** Number of copies of [x] among the pool entries. *)
Definition copies (x : string) (pool : list string) : nat :=
  count_occ string_dec pool x.

(** 1 when the thread has taken [x] out of the pool, else 0. *)
Definition takes (x : string) (l : local) : nat :=
  match holding l with
  | Some y => if string_dec y x then 1 else 0
  | None => 0
  end.

(** No directory scan lists a file named [x]. *)
Definition never_listed (x : string) (w : world) : Prop :=
  forall k pattern, ~ In x (map Os.basename (listing w k pattern)).

(** The entries a thread still has to append do not name [x]. *)
Definition appends_other (x : string) (l : local) : Prop :=
  match l with
  | AtAppend entries => ~ In x (map Os.basename entries)
  | _ => True
  end.

(** What holds of a configuration along every schedule. *)
Definition at_most_one (x : string) (cf : config) : Prop :=
  generate_dummy_files (snd (state cf)) = false
  /\ never_listed x (fst (state cf))
  /\ appends_other x (thread1 cf)
  /\ appends_other x (thread2 cf)
  /\ (copies x (pool_of_files (snd (state cf)))
      + takes x (thread1 cf) + takes x (thread2 cf) <= 1)%nat.

(** A server whose pool holds the first sample file while the input folder
    lists only the second one. *)
Definition quiet_world : world :=
  World Sample.clock0 0 (fun _ _ => ["/srv/input/EUC_LE1_VIS-W-2.fits"]) 0
        Sample.files0 (fun _ => true) [].

(** A server whose input folder still lists the file that is in the
    pool: nothing has moved it to the processed folder yet. *)
Definition busy_world : world :=
  World Sample.clock0 0 (fun _ _ => ["/srv/input/EUC_LE1_VIS-W-1.fits"]) 0
        Sample.files0 (fun _ => true) [].

Definition one_item : handler_class :=
  with_pool ["EUC_LE1_VIS-W-1.fits"] Sample.class0.

(** The two threads take turns, thread 1 first: both pass the test of the
    pool before either pops, and the second [pop] finds the pool empty. *)
Definition alternating : list bool :=
  flat_map (fun _ => [true; false]) (seq 0 12).

(** Thread 1 runs to its end, then thread 2 does. *)
Definition one_after_the_other : list bool :=
  repeat true 6 ++ repeat false 12.

(** ** The other entry points of the handler *)

Module Http.

(** [do_HEAD()] *)
Definition do_HEAD : M unit := Handler.send_content 200 "text/html" false.

(** The page [do_POST] builds in its [StringIO] buffer. *)
Definition upload_page (r : bool) (info : string) : string :=
  "<!DOCTYPE html PUBLIC " ++ str1 DQ ++ "-//W3C//DTD HTML 3.2 Final//EN"
    ++ str1 DQ ++ ">"
  ++ "<html>" ++ str1 LF ++ "<title>Upload Result Page</title>" ++ str1 LF
  ++ "<body>" ++ str1 LF ++ "<h1>Upload Result Page</h1>" ++ str1 LF
  ++ "<hr>" ++ str1 LF
  ++ (if r then "<strong>Success:</strong>" else "<strong>Failed:</strong>")
  ++ info
  ++ "</body>" ++ str1 LF ++ "</html>" ++ str1 LF.

(** [do_POST()].  The [print] of the result goes to the standard output
    of the server and is left out; [length] is [f.tell()] after the page
    has been written. *)
Definition do_POST (fuel : nat) : M unit :=
  result <- Handler.deal_post_data fuel ;;
  let (r, info) := result in
  let f := upload_page r info in
  let length := len f in
  Handler.send_content 200 "text/html" true ;;;
  Handler.emit (Header "Content-Length" (decimal length)) ;;;
  Handler.emit EndHeaders ;;;
  Handler.emit (Body f).

(** [s.split(sep, 1)] for a one-byte separator: the text before the first
    separator and the text after it, or the text alone. *)
Fixpoint split1 (sep : ascii) (s : string) : list string :=
  match s with
  | EmptyString => [EmptyString]
  | String a s' =>
      if Ascii.eqb a sep then [EmptyString; s']
      else match split1 sep s' with
           | piece :: rest => String a piece :: rest
           | [] => [str1 a]
           end
  end.

(** The body of the loop of [translate_path]: [os.path.splitdrive] leaves
    a POSIX word as it is, [os.path.split] keeps what follows the last
    slash, and the words [.] and [..] are passed over. *)
Definition translate_word (path word : string) : string :=
  let word := Os.basename word in
  if orb (String.eqb word ".") (String.eqb word "..") then path
  else Os.path_join path word.

(** [translate_path(path)], with [os.getcwd()] as [cwd].  The library
    functions [urllib.unquote] and [posixpath.normpath] are parameters. *)
Definition translate_path (unquote normpath : string -> string)
    (cwd path : string) : string :=
  let path := hd EmptyString (split1 "?" path) in
  let path := hd EmptyString (split1 "#" path) in
  let path := normpath (unquote path) in
  let words := split_on "/" path in
  let words := List.filter (fun w => negb (String.eqb w EmptyString)) words in
  fold_left translate_word words cwd.

End Http.


(** The text of a list of lines. *)
Definition join_lines (ls : list string) : string :=
  fold_right String.append EmptyString ls.

(** What the parser leaves in the destination for the content lines
    [p :: ps]: every line but the last as it is, the last one stripped. *)
Definition stored (p : string) (ps : list string) : string :=
  join_lines (List.removelast (p :: ps))
    ++ Handler.strip_pending (List.last (p :: ps) EmptyString).

(** A word that [translate_path] appends: not empty, not [.] or [..],
    without a slash. *)
Definition plain_word (w : string) : Prop :=
  w <> EmptyString /\ w <> "." /\ w <> ".." /\ contains "/" w = false.

(** The [Content-Disposition] line of a file field named [file]. *)
Definition disposition_line (filename : string) : string :=
  "Content-Disposition: form-data; name=" ++ str1 DQ ++ "file" ++ str1 DQ
  ++ "; filename=" ++ str1 DQ ++ filename ++ str1 DQ ++ CRLF.

(** An upload of the two lines [HELLO] and [WORLD] under the file name
    [filename], with boundary [B], declaring [n] bytes. *)
Definition two_line_request (filename : string) (n : Z) : request :=
  Request "; boundary=B" n "/srv/up"
    ("--B" ++ CRLF ++ disposition_line filename ++ CRLF
     ++ "HELLO" ++ CRLF ++ "WORLD" ++ CRLF ++ "--B--" ++ CRLF)
    [].

(** An upload whose second line is not a disposition line. *)
Definition nameless_request : request :=
  Request "; boundary=B" 40 "/srv/up"
    ("--B" ++ CRLF ++ "Content-Type: text/plain" ++ CRLF ++ CRLF
     ++ "HELLO" ++ CRLF ++ "--B--" ++ CRLF)
    [].

(** A world where no file can be created. *)
Definition sealed_world : world :=
  World Sample.clock0 0 Sample.listing0 0 Sample.files0 (fun _ => false) [].

(** An upload that declares 200 bytes and ends after two content lines,
    without a closing boundary line. *)
Definition starved_request : request :=
  Request "; boundary=B" 200 "/srv/up" (rfile cut_request) [].

(** The name the synthetic mode gives the file of observation [obs] and
    dither [dither] at clock reading [t], in pass [x] of its outer loop. *)
Definition synthetic_name (obs dither x t : Z) : string :=
  "EUC_LE1_VIS-W-" ++ decimal obs ++ "-" ++ decimal dither ++ "_"
    ++ strftime "%Y%m%dT%H%M%S" (gmtime (t + 100000000 + x * 100))
    ++ ".0Z.fits".

(** Where [create_dummy_file] puts the file named [name]. *)
Definition dummy_path (c : handler_class) (name : string) : string :=
  rootdir c ++ "/" ++ input_files_dir ++ "/" ++ name.

(** [m'] is [m] after [k] synthetic files: [k] names more in the pool,
    each with its file, the observation counter and the clock [k] steps
    further, and nothing else touched. *)
Definition synthesised (k : nat) (m m' : machine) : Prop :=
  exists names : list string,
    length names = k
    /\ pool_of_files (cls m') = (pool_of_files (cls m) ++ names)%list
    /\ obs_id (cls m') = (obs_id (cls m) + Z.of_nat k)%Z
    /\ ticks (os m') = (ticks (os m) + k)%nat
    /\ polls (os m') = polls (os m)
    /\ rootdir (cls m') = rootdir (cls m)
    /\ task_inputs (cls m') = task_inputs (cls m)
    /\ creatable (os m') = creatable (os m)
    /\ (forall n, In n names ->
          startswith "EUC_LE1_VIS-W-" n = true
          /\ files (os m') !! dummy_path (cls m) n = Some Handler.primary_hdu)
    /\ (forall p, files (os m) !! p = Some Handler.primary_hdu ->
          files (os m') !! p = Some Handler.primary_hdu).

(** The reply of [do_POST] for the result [(r, info)] of the parser. *)
Definition post_reply (r : bool) (info : string) : list wire :=
  [ Status 200; Header "Content-type" "text/html";
    Header "Content-Length" (decimal (len (Http.upload_page r info)));
    EndHeaders; Body (Http.upload_page r info) ].

(** The request with an empty output stream, as [serve] starts it. *)
Definition fresh (m : machine) : machine :=
  Machine (os m) (cls m) (with_wfile [] (self m)).

(** A server in synthetic mode. *)
Definition synthetic_class : handler_class :=
  HandlerClass "/srv" true [] 12000 ∅ EmptyString.


(** ** GET requests *)

(** What the handler takes from outside the repository when it serves a
    GET request: the library function [urlparse.parse_qs], the builtin
    [repr] on byte strings, and the directories of the file system
    ([os.path.isdir]); no handler makes or removes a directory. *)
Record platform : Type := Platform {
  parse_qs : string -> gmap string (list string);
  repr : string -> string;
  isdir : string -> bool
}.

(** The attributes of [self] a GET request reads.  [client_address] and
    [headers] are objects and stand here as their [repr] texts. *)
Record connection : Type := Connection {
  path : string;
  command : string;
  client_address : string;
  headers : string;
  server_version : string;
  sys_version : string
}.

Module Get.

(** [s.find(c)] for one byte: the first index of [c], or -1. *)
Fixpoint find (c : ascii) (s : string) : Z :=
  match s with
  | EmptyString => (-1)%Z
  | String a s' =>
      if Ascii.eqb a c then 0%Z
      else let i := find c s' in if (i <? 0)%Z then (-1)%Z else (i + 1)%Z
  end.

(** [s[n:]] for [n >= 0]. *)
Fixpoint from (n : nat) (s : string) : string :=
  match n, s with
  | S n', String _ s' => from n' s'
  | _, _ => s
  end.

(** [s.lower()] on bytes. *)
Definition lower_byte (a : ascii) : ascii :=
  let n := nat_of_ascii a in
  if andb (65 <=? n)%nat (n <=? 90)%nat then ascii_of_nat (n + 32) else a.

Fixpoint lower (s : string) : string :=
  match s with
  | EmptyString => EmptyString
  | String a s' => String (lower_byte a) (lower s')
  end.

(** The text from the last dot of [s] on, if [s] has a dot. *)
Fixpoint last_dot (s : string) : option string :=
  match s with
  | EmptyString => None
  | String a s' =>
      match last_dot s' with
      | Some e => Some e
      | None => if Ascii.eqb a "." then Some s else None
      end
  end.

Fixpoint all_dots (s : string) : bool :=
  match s with
  | EmptyString => true
  | String a s' => andb (Ascii.eqb a ".") (all_dots s')
  end.

(** The second component of [os.path.splitext(p)]: the text from the last
    dot of the base name on, unless only dots come before it. *)
Definition splitext_ext (p : string) : string :=
  let b := Os.basename p in
  match last_dot b with
  | Some e =>
      if all_dots (take (String.length b - String.length e) b)
      then EmptyString else e
  | None => EmptyString
  end.

(** The class attribute [content_type]. *)
Definition content_type : list (string * string) :=
  [ (".css", "text/css"); (".gif", "image/gif"); (".htm", "text/html");
    (".html", "text/html"); (".jpeg", "image/jpeg"); (".jpg", "image/jpg");
    (".js", "text/javascript"); (".png", "image/png");
    (".text", "text/plain"); (".txt", "text/plain");
    (".fits", "application/fits"); (".json", "application/json") ].

(** [d[key]] on a dictionary given by its items. *)
Fixpoint lookup_item (key : string) (d : list (string * string))
    : option string :=
  match d with
  | [] => None
  | (k, v) :: d' => if String.eqb key k then Some v else lookup_item key d'
  end.

Definition write (data : string) : M unit := Handler.emit (Body data).

(** [with open(path) as ifp: self.wfile.write(ifp.read())] *)
Definition write_file (path : string) : M unit :=
  w <- the_world ;;
  match files w !! path with
  | Some data => write data
  | None => raise (IOError path)
  end.

(** [send_file(path)].  The ten seconds it sleeps in synthetic mode take
    no part in the reply. *)
Definition send_file (path : string) : M unit :=
  let ext := splitext_ext path in
  let ext := lower ext in
  match lookup_item ext content_type with
  | Some mimetype =>
      Handler.send_content 200 mimetype false ;;;
      write_file path
  | None =>
      Handler.send_content 200 "text/html" false ;;;
      write_file path
  end.

(** [do_info()] *)
Definition do_info (pf : platform) (conn : connection) : M unit :=
  Handler.send_content 200 "text/html" false ;;;
  write "<html><head><title>Server Info</title></head>" ;;;
  write "<body><table><tbody>" ;;;
  write ("<tr><td>client_address</td><td>"
           ++ repr pf (client_address conn) ++ "</td></tr>") ;;;
  write ("<tr><td>command</td><td>"
           ++ repr pf (repr pf (command conn)) ++ "</td></tr>") ;;;
  write ("<tr><td>headers</td><td>"
           ++ repr pf (headers conn) ++ "</td></tr>") ;;;
  write ("<tr><td>path</td><td>"
           ++ repr pf (repr pf (path conn)) ++ "</td></tr>") ;;;
  write ("<tr><td>server_version</td><td>"
           ++ repr pf (repr pf (server_version conn)) ++ "</td></tr>") ;;;
  write ("<tr><td>sys_version</td><td>"
           ++ repr pf (repr pf (sys_version conn)) ++ "</td></tr>") ;;;
  write "</tbody></table></body></html>".

(** [os.path.exists] and [os.path.isfile] on the files of the world and
    the directories of the platform. *)
Definition isfile (pf : platform) (w : world) (p : string) : bool :=
  andb (bool_decide (is_Some (files w !! p))) (negb (isdir pf p)).

Definition exists_ (pf : platform) (w : world) (p : string) : bool :=
  orb (isdir pf p) (bool_decide (is_Some (files w !! p))).

(** The loop over the index files: the first one that exists replaces the
    path. *)
Fixpoint index_of (pf : platform) (w : world) (path : string)
    (index_files : list string) : string :=
  match index_files with
  | [] => path
  | index_file :: rest =>
      let tmppath := path ++ index_file in
      if exists_ pf w tmppath then tmppath else index_of pf w path rest
  end.

(** The page sent for a path that is no file. *)
Definition access_error (pf : platform) (conn : connection) (rpath : string)
    : M unit :=
  Handler.send_content 500 "text/html" false ;;;
  write "<html>" ;;;
  write "  <head>" ;;;
  write "    <title>Server Access Error</title>" ;;;
  write "  </head>" ;;;
  write "  <body>" ;;;
  write "    <p>Server access error.</p>" ;;;
  write ("    <p>" ++ repr pf (repr pf (path conn)) ++ "</p>") ;;;
  write ("    <p><a href=" ++ str1 DQ ++ rpath ++ str1 DQ ++ ">Back</a></p>") ;;;
  write "  </body>" ;;;
  write "</html>".

(** The last branch of [do_GET]: the path under the root directory. *)
Definition serve_path (pf : platform) (conn : connection) (rpath : string)
    : M unit :=
  c <- the_class ;;
  w <- the_world ;;
  let path := rootdir c ++ rpath in
  let path :=
    if andb (exists_ pf w path) (isdir pf path)
    then index_of pf w path ["/index.html"; "/index.htm"]
    else path in
  if andb (exists_ pf w path) (isfile pf w path)
  then send_file path
  else access_error pf conn rpath.

(** [self.path[:idx]] when the path has a [?], else the path. *)
Definition rpath_of (p : string) : string :=
  let idx := find "?" p in
  if (0 <=? idx)%Z then take (Z.to_nat idx) p else p.

(** [urlparse.parse_qs(self.path[idx+1:])] when the path has a [?], else
    the empty dictionary. *)
Definition args_of (pf : platform) (p : string) : gmap string (list string) :=
  let idx := find "?" p in
  if (0 <=? idx)%Z then parse_qs pf (from (Z.to_nat (idx + 1)) p) else ∅.

(** [do_GET()] *)
Definition do_GET (pf : platform) (conn : connection) (fuel : nat) : M unit :=
  let args := args_of pf (path conn) in
  let rpath := rpath_of (path conn) in
  if orb (String.eqb (path conn) "/info") (String.eqb (path conn) "/info/")
  then do_info pf conn
  else if orb (String.eqb rpath "/get_task")
              (String.eqb (path conn) "/get_task/")
  then Handler.do_get_task fuel
  else if orb (String.eqb rpath "/end_task")
              (String.eqb (path conn) "/end_task/")
  then
    match args !! "task_id" with
    | None => raise (KeyError "task_id")
    | Some [] => raise IndexError
    | Some (task_id :: _) => Handler.do_end_task task_id
    end
  else serve_path pf conn rpath.

End Get.

(** A platform for the examples: the query string is a single
    [name=value] pair, [repr] puts single quotes around the text, and
    the directories are the root and its input folder. *)
Definition sample_platform : platform :=
  Platform
    (fun qs => match split_on "=" qs with
               | [name; value] => {[ name := [value] ]}
               | _ => ∅
               end)
    (fun s => "'" ++ s ++ "'")
    (fun p => orb (String.eqb p "/srv") (String.eqb p "/srv/input")).

Definition get (p : string) : connection :=
  Connection p "GET" "('127.0.0.1', 40000)" EmptyString "BaseHTTP/0.3"
             "Python/2.7".

(** A world with a page and an input file under the root directory. *)
Definition site_world : world :=
  World Sample.clock0 0 Sample.listing0 0
    {[ "/srv/index.html" := "<p>Hello, world!</p>";
       "/srv/input/EUC_LE1_VIS-W-1.FITS" := "first" ]}
    (fun _ => true) [].

(** A request that [do_GET] serves from the files: its path is none of
    the routes. *)
Definition plain_path (p : string) : Prop :=
  p <> "/info" /\ p <> "/info/" /\ p <> "/get_task/" /\ p <> "/end_task/"
  /\ Get.rpath_of p <> "/get_task" /\ Get.rpath_of p <> "/end_task".

(** The reply to a request for a stored file. *)
Definition file_reply (p data : string) : list wire :=
  [ Status 200;
    Header "Content-type"
      (default "text/html"
         (Get.lookup_item (Get.lower (Get.splitext_ext p)) Get.content_type));
    EndHeaders; Body data ].


(** The reply [access_error] sends. *)
Definition access_error_reply (pf : platform) (conn : connection)
    (rpath : string) : list wire :=
  [ Status 200; Header "Content-type" "text/html"; EndHeaders;
    Body "<html>"; Body "  <head>";
    Body "    <title>Server Access Error</title>"; Body "  </head>";
    Body "  <body>"; Body "    <p>Server access error.</p>";
    Body ("    <p>" ++ repr pf (repr pf (path conn)) ++ "</p>");
    Body ("    <p><a href=" ++ str1 DQ ++ rpath ++ str1 DQ ++ ">Back</a></p>");
    Body "  </body>"; Body "</html>" ].

(** The reply that carries a page as [text/html]. *)
Definition page_reply (data : string) : list wire :=
  [ Status 200; Header "Content-type" "text/html"; EndHeaders; Body data ].

(** ** Basic facts *)

Section Basics.

Lemma bind_done {A B} (c : M A) (k : A -> M B) m a m' :
  c m = Done a m' -> bind c k m = k a m'.
Proof. intros H. unfold bind. now rewrite H. Qed.

Lemma bind_raised {A B} (c : M A) (k : A -> M B) m e m' :
  c m = Raised e m' -> bind c k m = Raised e m'.
Proof. intros H. unfold bind. now rewrite H. Qed.


(** With a file in the pool, [get_task] serves the first one without any
    refill: one clock reading, the pool loses its head, the registry gains
    the new id. *)
Lemma do_get_task_nonempty fuel w c q x pool' :
  pool_of_files c = x :: pool' ->
  Handler.do_get_task fuel (Machine w c q) =
  Done tt (Machine (with_ticks (S (ticks w)) w)
                   (issued x (clock w (ticks w)) pool' c)
                   (with_wfile (wfile q ++ task_reply x (clock w (ticks w))) q)).
Proof.
  intros Hpool. destruct c as [rd gen pool oid reg cur]. simpl in Hpool. subst pool.
  unfold Handler.do_get_task, bind, the_class. cbn [cls pool_of_files length].
  replace (Z.of_nat (S (length pool')) <? 1)%Z with false
    by (symmetry; apply Z.ltb_ge; lia).
  unfold task_reply, Handler.send_content, Handler.emit, issued.
  change (0 <? len "application/json")%Z with true.
  unfold bind, set_request, set_class, set_world, the_world, ret,
    Handler.pool_pop, Os.time, bind, the_class, the_world, set_world, set_class, ret.
  cbn -[strftime gmtime Handler.out_file_of Handler.log_file_of].
  unfold with_wfile at 1.
  cbn -[strftime gmtime Handler.out_file_of Handler.log_file_of].
  rewrite <- !app_assoc. reflexivity.
Qed.

Lemma serve_get_task_nonempty fuel w c q x pool' :
  pool_of_files c = x :: pool' ->
  serve (Handler.do_get_task fuel) (Machine w c q) =
  Done (task_reply x (clock w (ticks w)))
       (Machine (with_ticks (S (ticks w)) w)
                (issued x (clock w (ticks w)) pool' c)
                (with_wfile (task_reply x (clock w (ticks w))) q)).
Proof.
  intros Hpool. unfold serve.
  unfold bind at 1. cbn [set_request os cls self].
  unfold bind at 1.
  rewrite (do_get_task_nonempty fuel _ _ _ x pool' Hpool).
  reflexivity.
Qed.

End Basics.

(** ** Sequential issuance (C1) *)

Section Issuance.





End Issuance.

(** ** Completing a task (C3, C4) *)

Section Completion.

Lemma input_not_processed f g : input_path f <> processed_path g.
Proof. unfold input_path, processed_path. cbn. intros H. discriminate H. Qed.

(** Registry entries come from [get_task]: the id it sends is registered
    for the file it sends. *)
Lemma do_get_task_registers fuel w c q x pool' :
  pool_of_files c = x :: pool' ->
  exists reply d m',
    serve (Handler.do_get_task fuel) (Machine w c q) = Done reply m'
    /\ descriptor reply = Some d
    /\ in_file d = x
    /\ task_inputs (cls m') !! task_id d = Some x.
Proof.
  intros Hpool. eexists _, _, _.
  split; [apply serve_get_task_nonempty; eassumption|].
  split; [reflexivity|]. split; [reflexivity|].
  cbn [cls issued task_inputs task_id]. apply lookup_insert_eq.
Qed.

(** C3.  When [task_id] is registered for file [f], [f] is in the input
    folder and the processed folder takes it, [end_task] renames [./input/f] to [./processed/f]: the bytes are
    then under the processed path, the input path is gone, no other path
    changes, the class state is untouched, and the reply is a bare 200
    without body. *)
Theorem end_task_moves_file m id f data :
  task_inputs (cls m) !! id = Some f ->
  files (os m) !! input_path f = Some data ->
  creatable (os m) (processed_path f) = true ->
  exists m',
    serve (Handler.do_end_task id) m = Done bare_200 m'
    /\ files (os m') !! processed_path f = Some data
    /\ files (os m') !! input_path f = None
    /\ (forall p, p <> input_path f -> p <> processed_path f ->
          files (os m') !! p = files (os m) !! p)
    /\ cls m' = cls m.
Proof.
  intros Hreg Hfile Hdst. destruct m as [w c q]. cbn [cls os] in *.
  unfold serve, Handler.do_end_task, Os.rename, bind, the_class, the_world,
    set_request. cbn [cls os self].
  rewrite Hreg. cbn [os].
  change ("./" ++ input_files_dir ++ "/" ++ f) with (input_path f).
  change ("./" ++ processed_files_dir ++ "/" ++ f) with (processed_path f).
  rewrite Hfile, Hdst.
  eexists. split; [reflexivity|]. cbn [os cls files with_files].
  repeat split.
  - apply lookup_insert_eq.
  - rewrite lookup_insert_ne by (apply not_eq_sym, input_not_processed).
    apply lookup_delete_eq.
  - intros p Hp1 Hp2. rewrite lookup_insert_ne by congruence.
    apply lookup_delete_ne. congruence.
Qed.

Lemma end_task_moves_file_witness :
  exists m',
    serve (Handler.do_end_task "QDTsrv_20170714-024000") after_first_task
      = Done bare_200 m'
    /\ files (os m') !! "./processed/EUC_LE1_VIS-W-1.fits" = Some "first"
    /\ files (os m') !! "./input/EUC_LE1_VIS-W-1.fits" = None.
Proof.
  destruct (end_task_moves_file after_first_task "QDTsrv_20170714-024000"
              "EUC_LE1_VIS-W-1.fits" "first")
    as (m' & Hrun & Hnew & Hold & _).
  - vm_compute. reflexivity.
  - vm_compute. reflexivity.
  - reflexivity.
  - exists m'. auto.
Defined.

(** C4, as the code has it.  For a [task_id] that is not in the registry,
    [end_task] raises [KeyError] at the registry lookup; nothing catches it
    in the handler, so no reply is written, and the machine (files,
    registry, pool) is exactly as before. *)
Theorem end_task_unknown_id m id :
  task_inputs (cls m) !! id = None ->
  Handler.do_end_task id m = Raised (KeyError id) m.
Proof.
  intros Hreg. unfold Handler.do_end_task, bind, the_class. now rewrite Hreg.
Qed.

Lemma end_task_unknown_id_witness :
  Handler.do_end_task "QDTsrv_20170714-024000" Sample.machine0
    = Raised (KeyError "QDTsrv_20170714-024000") Sample.machine0.
Proof. apply (end_task_unknown_id Sample.machine0). reflexivity. Defined.

(** C4 as stated fails: on the freshly started server, [end_task] for an id
    that was never issued ends in the uncaught [KeyError] and returns no
    reply at all. *)
Lemma end_task_unknown_id_no_reply :
  ~ exists reply m',
      serve (Handler.do_end_task "QDTsrv_20170714-024000") Sample.machine0
        = Done reply m'
      /\ error_reply reply.
Proof. intros (reply & m' & Hrun & _). discriminate Hrun. Qed.

End Completion.

(** ** Derived file names (C7, C10) *)

Section Naming.

(** On the names the synthetic mode produces, the code and the worded rule
    give the same output and log names. *)
Example names_of_sample :
  let f := "EUC_LE1_VIS-W-12000-1_20200913T122640.0Z.fits" in
  Handler.out_file_of f = "EUC_QLA_LE1-VIS-W-12000-1_20200913T122640.0Z.json"
  /\ Handler.log_file_of (Handler.out_file_of f)
       = "EUC_QLA_LE1-VIS-LOG-W-12000-1_20200913T122640.0Z.log"
  /\ Rule.out_file f = Handler.out_file_of f
  /\ Rule.log_file (Rule.out_file f) = Handler.log_file_of (Handler.out_file_of f).
Proof. vm_compute. repeat split. Qed.

(** C7 at a failing input.  The pattern ['.fits'] is a regular expression
    whose dot matches any byte, and it is not tied to the end of the name:
    for the input file [EUC_LE1_VIS-W-1_refits.fits] the code rewrites
    [efits] inside the name as well, where the rule only changes the
    extension; the log name inherits the damage. *)
Theorem out_file_not_extension_change :
  let f := "EUC_LE1_VIS-W-1_refits.fits" in
  Rule.endswith ".fits" f = true
  /\ Handler.out_file_of f = "EUC_QLA_LE1-VIS-W-1_r.json.json"
  /\ Rule.out_file f = "EUC_QLA_LE1-VIS-W-1_refits.json"
  /\ Handler.out_file_of f <> Rule.out_file f
  /\ Handler.log_file_of (Handler.out_file_of f) = "EUC_QLA_LE1-VIS-LOG-W-1_r.log.log"
  /\ Rule.log_file (Rule.out_file f) = "EUC_QLA_LE1-VIS-LOG-W-1_refits.log".
Proof. vm_compute. repeat split. discriminate. Qed.

(** A pattern that matches nowhere leaves the text as it is. *)
Lemma sub_from_not_found p repl s :
  Re.found p s = false -> Re.sub_from p repl s 0 false = s.
Proof.
  induction s as [|c s IH]; cbn [Re.found Re.sub_from].
  - destruct (Re.match_here p EmptyString); [discriminate|reflexivity].
  - destruct (Re.match_here p (String c s)); [discriminate|].
    intros H. now rewrite IH.
Qed.

Lemma sub_not_found pattern repl s :
  Re.search pattern s = false -> Re.sub pattern repl s = s.
Proof. apply sub_from_not_found. Qed.

(** *** The input tag is gone from every output name *)

(** A pattern of plain bytes matches where the text starts with them. *)
Lemma match_here_literal w : forall s,
  Re.match_here (literal w) s
  = if startswith w s
    then Some (Re.Hit [] (skip_bytes (String.length w) s)) else None.
Proof.
  induction w as [|a w IH]; intros s; [reflexivity|].
  cbn [literal Re.match_here startswith String.length].
  destruct s as [|c s]; [reflexivity|].
  cbn [Re.atom_matches skip_bytes]. rewrite Ascii.eqb_sym.
  destruct (Ascii.eqb a c); [apply IH|reflexivity].
Qed.

Lemma startswith_length w : forall s,
  startswith w s = true ->
  (String.length (skip_bytes (String.length w) s) + String.length w
   = String.length s)%nat.
Proof.
  induction w as [|a w IH]; intros s H; cbn in *; [lia|].
  destruct s as [|c s]; [discriminate|].
  destruct (Ascii.eqb a c); [|discriminate].
  cbn. specialize (IH s H). lia.
Qed.

(** A search that never completes the tag finds no place where the tag
    starts. *)
Lemma tag_free_step q c s :
  tag_free q (String c s) = true -> tag_free (advance q c) s = true.
Proof. cbn. destruct (advance q c =? 7)%nat; [discriminate|auto]. Qed.

Lemma startswith_split w : forall s,
  startswith w s = true -> s = w ++ skip_bytes (String.length w) s.
Proof.
  induction w as [|a w IH]; intros s H; [reflexivity|].
  destruct s as [|c s]; [discriminate|].
  cbn [startswith] in H. destruct (Ascii.eqb a c) eqn:E; [|discriminate].
  apply Ascii.eqb_eq in E. subst c.
  cbn [String.length skip_bytes]. change (String a w ++ ?t) with (String a (w ++ t)).
  now rewrite <- IH.
Qed.

Lemma startswith_tag_not_free s : forall q,
  startswith input_tag s = true -> tag_free q s = false.
Proof.
  intros q H. rewrite (startswith_split _ _ H).
  generalize (skip_bytes (String.length input_tag) s). intros r.
  destruct q as [|[|[|[|[|[|[|q]]]]]]]; reflexivity.
Qed.

Lemma tag_free_not_found s : forall q,
  tag_free q s = true -> Re.found (literal input_tag) s = false.
Proof.
  induction s as [|c s IH]; intros q H.
  - reflexivity.
  - cbn [Re.found]. rewrite match_here_literal.
    destruct (startswith input_tag (String c s)) eqn:E.
    + now rewrite (startswith_tag_not_free _ q E) in H.
    + apply (IH (advance q c)). now apply tag_free_step.
Qed.

Lemma match_here_tag s :
  Re.match_here (literal input_tag) s
  = if startswith input_tag s
    then Some (Re.Hit [] (skip_bytes 7 s)) else None.
Proof. apply match_here_literal. Qed.

Lemma consumed_tag s :
  startswith input_tag s = true ->
  Re.consumed s (Re.Hit [] (skip_bytes 7 s)) = 7%nat.
Proof.
  intros H. unfold Re.consumed. cbn [Re.rest].
  assert (L := startswith_length _ _ H). cbn [String.length input_tag] in L. lia.
Qed.

(** The replacement text of the first substitution brings the search back
    to its start. *)
Lemma tag_free_output_tag q t :
  (q <= 6)%nat -> tag_free q ("QLA_LE1-VIS" ++ t) = tag_free 0 t.
Proof.
  intros H. destruct q as [|[|[|[|[|[|[|q]]]]]]]; try lia; reflexivity.
Qed.

(** The first substitution writes a text without the tag: where [q] bytes
    of the tag have been copied, the text read does not go on to complete
    it, since a complete tag would have been replaced. *)
Lemma sub_tag_free s : forall skip q adj,
  (q <= 6)%nat ->
  (skip = 0%nat -> q = 0%nat \/ startswith input_tag (take q input_tag ++ s) = false) ->
  (skip <> 0%nat -> q = 0%nat) ->
  tag_free q (Re.sub_from (literal input_tag) "QLA_LE1-VIS" s skip adj) = true.
Proof.
  induction s as [|c s IH]; intros skip q adj Hq Hinv Hskip.
  - destruct skip; cbn [Re.sub_from]; [|reflexivity].
    rewrite match_here_tag. reflexivity.
  - destruct skip as [|k]; cbn [Re.sub_from].
    2:{ rewrite (Hskip ltac:(lia)). apply IH; [lia|auto|auto]. }
    rewrite match_here_tag.
    destruct (startswith input_tag (String c s)) eqn:E.
    + rewrite (consumed_tag _ E). rewrite tag_free_output_tag by exact Hq.
      apply IH; [lia|intros; discriminate|auto].
    + assert (Hall : startswith input_tag (take q input_tag ++ String c s) = false).
      { destruct (Hinv eq_refl) as [->|H]; [exact E|exact H]. }
      clear Hinv Hskip.
      cbn [tag_free]. unfold advance.
      destruct q as [|[|[|[|[|[|[|q]]]]]]]; try lia;
        cbn [String.get input_tag];
        match goal with
        | |- context [Ascii.eqb c ?d] =>
            destruct (Ascii.eqb c d) eqn:E1;
              [apply Ascii.eqb_eq in E1; subst c|]
        end;
        try (destruct (Ascii.eqb c "L") eqn:E2;
              [apply Ascii.eqb_eq in E2; subst c|]);
        cbn [Nat.eqb];
        try (apply IH; [lia| intros _; (left; reflexivity) || (right; first [exact Hall | exact E]) | intros; congruence]).
      all: try (cbn in Hall; discriminate Hall).
Qed.

Lemma match_here_fits s :
  Re.match_here (Re.One Re.Any :: literal "fits") s
  = match s with
    | EmptyString => None
    | String c s' =>
        if negb (Ascii.eqb c LF) && startswith "fits" s'
        then Some (Re.Hit [] (skip_bytes 4 s')) else None
    end.
Proof.
  destruct s as [|c s]; [reflexivity|].
  cbn [Re.match_here Re.atom_matches].
  destruct (negb (Ascii.eqb c LF)); [|reflexivity].
  cbn [andb]. apply (match_here_literal "fits").
Qed.

Lemma consumed_fits c s :
  startswith "fits" s = true ->
  Re.consumed (String c s) (Re.Hit [] (skip_bytes 4 s)) = 5%nat.
Proof.
  intros H. unfold Re.consumed. cbn [Re.rest String.length].
  assert (L := startswith_length _ _ H). cbn [String.length] in L. lia.
Qed.

Lemma tag_free_json q t :
  (q <= 6)%nat -> tag_free q (".json" ++ t) = tag_free 0 t.
Proof.
  intros H. destruct q as [|[|[|[|[|[|[|q]]]]]]]; try lia; reflexivity.
Qed.

Lemma advance_L a : advance a "L" = 1%nat.
Proof. destruct a as [|[|[|[|[|[|[|a]]]]]]]; reflexivity. Qed.

Lemma advance_le a c : (advance a c <= S a)%nat.
Proof.
  unfold advance. destruct (String.get a input_tag);
    repeat match goal with |- context [if ?b then _ else _] => destruct b end;
    lia.
Qed.

Lemma advance_start c :
  advance 0 c = 0%nat \/ (advance 0 c = 1%nat /\ c = "L"%char).
Proof.
  unfold advance. cbn [String.get input_tag].
  destruct (Ascii.eqb c "L") eqn:E; [apply Ascii.eqb_eq in E|]; auto.
Qed.

(** The second substitution keeps a text without the tag without it: its
    replacement shares no byte with the tag, and what it copies was already
    there in one piece.  [a] is the progress of the search on the text read,
    [q] its progress on the text written. *)
Lemma sub_fits_tag_free s : forall skip q a adj,
  (a <= 6)%nat ->
  tag_free a s = true ->
  q = 0%nat \/ (q = a /\ skip = 0%nat) ->
  tag_free q (Re.sub_from (Re.One Re.Any :: literal "fits") ".json" s skip adj)
  = true.
Proof.
  induction s as [|c s IH]; intros skip q a adj Ha Hfree Hq.
  - destruct skip; reflexivity.
  - assert (Hstep := tag_free_step _ _ _ Hfree).
    assert (Ha' : (advance a c <= 6)%nat).
    { assert (L := advance_le a c). cbn [tag_free] in Hfree.
      destruct (advance a c =? 7)%nat eqn:E; [discriminate|].
      apply Nat.eqb_neq in E. lia. }
    destruct skip as [|k].
    2:{ cbn [Re.sub_from]. apply (IH k q (advance a c)); auto.
        destruct Hq as [->|[_ H]]; [auto|discriminate]. }
    unfold Re.sub_from; fold Re.sub_from. rewrite match_here_fits.
    destruct (negb (Ascii.eqb c LF) && startswith "fits" s) eqn:E.
    + apply andb_prop in E as [_ E]. rewrite (consumed_fits c s E).
      rewrite tag_free_json by (destruct Hq as [->|[-> _]]; lia).
      apply (IH 4%nat 0%nat (advance a c)); auto.
    + cbn [tag_free].
      destruct Hq as [->|[-> _]].
      * destruct (advance_start c) as [->|[-> ->]]; cbn [Nat.eqb].
        -- apply (IH 0%nat 0%nat (advance a c)); auto.
        -- apply (IH 0%nat 1%nat (advance a "L")); auto.
           right. now rewrite advance_L.
      * cbn [tag_free] in Hfree.
        destruct (advance a c =? 7)%nat; [discriminate|].
        apply (IH 0%nat (advance a c) (advance a c)); auto.
Qed.

(** The output name never holds the input tag. *)
Lemma out_file_without_input_tag x :
  Re.search "LE1_VIS" (Handler.out_file_of x) = false.
Proof.
  unfold Re.search, Handler.out_file_of, Re.sub.
  change (Re.compile "LE1_VIS") with (literal input_tag).
  change (Re.compile ".fits") with (Re.One Re.Any :: literal "fits").
  apply (tag_free_not_found _ 0).
  apply (sub_fits_tag_free _ 0 0 0); [lia| |auto].
  apply sub_tag_free; [lia|auto|congruence].
Qed.

Lemma orig_do_get_task_nonempty w c q x pool' :
  pool_of_files c = x :: pool' ->
  serve Orig.do_get_task (Machine w c q) =
  Done [ Status 200; Header "Content-type" "application/json"; EndHeaders;
         BodyJson (TaskParams
                     (strftime "QDTsrv_%Y%m%d-%H%M%S" (gmtime (clock w (ticks w))))
                     x (Orig.out_file_of x)
                     (Orig.log_file_of (Orig.out_file_of x))
                     input_files_dir) ]
       (Machine (with_ticks (S (ticks w)) w) (with_pool pool' c)
          (with_wfile
             [ Status 200; Header "Content-type" "application/json"; EndHeaders;
               BodyJson (TaskParams
                     (strftime "QDTsrv_%Y%m%d-%H%M%S" (gmtime (clock w (ticks w))))
                     x (Orig.out_file_of x)
                     (Orig.log_file_of (Orig.out_file_of x))
                     input_files_dir) ] q)).
Proof.
  intros Hpool. destruct c as [rd gen pool oid reg cur]. simpl in Hpool. subst pool.
  unfold serve, Orig.do_get_task, bind, the_class, set_request.
  cbn [cls pool_of_files length self os].
  replace (Z.of_nat (S (length pool')) <? 1)%Z with false
    by (symmetry; apply Z.ltb_ge; lia).
  unfold Orig.send_content, Handler.emit.
  change (0 <? len "application/json")%Z with true.
  unfold bind, set_request, set_class, set_world, the_world, ret,
    Handler.pool_pop, Os.time, bind, the_class, the_world, the_request,
    set_world, set_class, ret.
  cbn -[strftime gmtime Orig.out_file_of Orig.log_file_of].
  reflexivity.
Qed.

(** Serving the same input file at the same clock reading, the two
    scripts send the same [task_id], [in_file], [out_file] and
    [retrieve_path]; their [log_file] is the same when [out_file] has no
    place for the [-LOG] tag. *)
Lemma scripts_agree_up_to_log_tag fuel w c q x pool' :
  pool_of_files c = x :: pool' ->
  exists r1 m1 d1 r2 m2 d2,
    serve (Handler.do_get_task fuel) (Machine w c q) = Done r1 m1
    /\ descriptor r1 = Some d1
    /\ serve Orig.do_get_task (Machine w c q) = Done r2 m2
    /\ descriptor r2 = Some d2
    /\ task_id d1 = task_id d2
    /\ in_file d1 = x /\ in_file d2 = x
    /\ out_file d1 = out_file d2
    /\ retrieve_path d1 = retrieve_path d2
    /\ (Re.search "LE1-VIS" (out_file d1) = false ->
        log_file d1 = log_file d2).
Proof.
  intros Hpool. eexists _, _, _, _, _, _.
  split; [apply serve_get_task_nonempty; eassumption|].
  split; [reflexivity|].
  split; [apply orig_do_get_task_nonempty; eassumption|].
  split; [reflexivity|].
  cbn [task_id in_file out_file retrieve_path log_file].
  repeat split.
  intros H1. unfold Handler.log_file_of, Orig.log_file_of.
  change (Orig.out_file_of x) with (Handler.out_file_of x).
  now rewrite (sub_not_found _ _ _ H1),
    (sub_not_found _ _ _ (out_file_without_input_tag x)).
Qed.

(** C10 at a failing input.  In [orig/webserver2.py] the substitution that
    should put the [-LOG] tag into the log name looks for [LE1_VIS], which
    no output name holds any more, so it never applies and the log name is
    the output name with its extension changed.  For the input file
    [EUC_LE1_VIS-W-1.fits], served at the same clock reading, the threaded
    script sends [EUC_QLA_LE1-VIS-LOG-W-1.log] and the original script
    [EUC_QLA_LE1-VIS-W-1.log]; the task id and the output name are the
    same. *)
Theorem orig_log_tag_never_inserted :
  (forall x, Orig.log_file_of (Orig.out_file_of x)
             = Re.sub ".json" ".log" (Orig.out_file_of x))
  /\ exists r1 m1 d1 r2 m2 d2,
       serve (Handler.do_get_task 0) Sample.seeded = Done r1 m1
       /\ descriptor r1 = Some d1
       /\ serve Orig.do_get_task Sample.seeded = Done r2 m2
       /\ descriptor r2 = Some d2
       /\ in_file d1 = "EUC_LE1_VIS-W-1.fits"
       /\ in_file d2 = "EUC_LE1_VIS-W-1.fits"
       /\ task_id d1 = task_id d2
       /\ out_file d1 = out_file d2
       /\ log_file d1 = "EUC_QLA_LE1-VIS-LOG-W-1.log"
       /\ log_file d2 = "EUC_QLA_LE1-VIS-W-1.log"
       /\ log_file d1 <> log_file d2.
Proof.
  split.
  - intros x. unfold Orig.log_file_of.
    change (Orig.out_file_of x) with (Handler.out_file_of x).
    now rewrite (sub_not_found _ _ _ (out_file_without_input_tag x)).
  - eexists _, _, _, _, _, _.
    split; [apply serve_get_task_nonempty; reflexivity|].
    split; [reflexivity|].
    split; [apply orig_do_get_task_nonempty; reflexivity|].
    split; [reflexivity|].
    vm_compute. repeat split. discriminate.
Qed.

End Naming.

(** ** Refilling the pool (C8) *)

Section Refill.

Lemma do_get_task_empty fuel m :
  pool_of_files (cls m) = [] ->
  Handler.do_get_task fuel m
    = (Handler.get_new_input_files fuel ;;; issue_task) m.
Proof.
  intros H. unfold Handler.do_get_task, issue_task.
  unfold bind at 1, the_class at 1. rewrite H. reflexivity.
Qed.


(** *** Loops *)







(** *** The synthetic mode *)







End Refill.

(** ** The upload parser (C2, C5, C6) *)

Section Upload.

Lemma line_of_lines s :
  lines_of s = match s with
               | EmptyString => []
               | _ => fst (Handler.line_of s) :: lines_of (snd (Handler.line_of s))
               end.
Proof.
  induction s as [|c s IH]; [reflexivity|].
  cbn [lines_of Handler.line_of]. destruct (Ascii.eqb c LF); [reflexivity|].
  rewrite IH. destruct s as [|c' s]; [reflexivity|].
  destruct (Handler.line_of (String c' s)) as [l r]. reflexivity.
Qed.

(** [readline] returns the first line left, or the empty string at the end
    of the stream, and moves on to the lines after it. *)
Lemma readline_run w c q :
  exists r,
    Handler.readline (Machine w c q)
      = Done (hd EmptyString (lines_of (rfile q))) (Machine w c (with_rfile r q))
    /\ lines_of r = tl (lines_of (rfile q)).
Proof.
  unfold Handler.readline, bind, the_request. cbn [self].
  rewrite (line_of_lines (rfile q)).
  destruct (rfile q) as [|a s] eqn:E.
  - exists EmptyString. split; reflexivity.
  - destruct (Handler.line_of (String a s)) as [l r]. exists r.
    split; reflexivity.
Qed.

(** *** A missing boundary on the first line (C5) *)

(** C5.  When the first line of the body does not contain the boundary
    token, the parser returns the failure "Content NOT begin with boundary"
    right after reading that line: the world is as before, so no file has
    been opened or created. *)
Theorem upload_missing_boundary fuel w c q p0 boundary ps :
  split_on "=" (plisttext q) = p0 :: boundary :: ps ->
  contains boundary (hd EmptyString (lines_of (rfile q))) = false ->
  exists r,
    Handler.deal_post_data fuel (Machine w c q)
      = Done (false, "Content NOT begin with boundary")
             (Machine w c (with_rfile r q))
    /\ lines_of r = tl (lines_of (rfile q)).
Proof.
  intros Hsplit Hline.
  destruct (readline_run w c q) as (r & Hread & Hrest).
  exists r. split; [|exact Hrest].
  unfold Handler.deal_post_data, bind at 1, the_request at 1. cbn [self].
  rewrite Hsplit. erewrite bind_done by exact Hread.
  rewrite Hline. reflexivity.
Qed.

Lemma upload_missing_boundary_witness :
  exists r,
    Handler.deal_post_data 0
      (Machine Sample.world0 Sample.class0 stray_request)
    = Done (false, "Content NOT begin with boundary")
           (Machine Sample.world0 Sample.class0 (with_rfile r stray_request)).
Proof.
  destruct (upload_missing_boundary 0 Sample.world0 Sample.class0 stray_request
              "; boundary" "B" []) as (r & Hrun & _).
  - reflexivity.
  - reflexivity.
  - exists r. exact Hrun.
Defined.

(** *** The declared length runs out (C6) *)

(** The loop, when the count left is used up within the next [n] lines and
    none of them holds the boundary: it returns the failure after at most
    [n] passes and does not return success, however much fuel it has. *)
Lemma upload_loop_exhausted n : forall fuel fn boundary remainbytes preline w c q,
  Forall (no_boundary boundary) (firstn n (lines_of (rfile q))) ->
  (remainbytes - total_len (firstn n (lines_of (rfile q))) <= 0)%Z ->
  ((n <= fuel)%nat ->
     exists m', Handler.upload_loop fuel fn boundary remainbytes preline
                  (Machine w c q)
                = Done (false, "Unexpect Ends of data.") m')
  /\ (forall msg m', Handler.upload_loop fuel fn boundary remainbytes preline
                       (Machine w c q)
                     <> Done (true, msg) m').
Proof.
  induction n as [|n IH]; intros fuel fn boundary remainbytes preline w c q Hno Hsum.
  - rewrite take_0 in Hsum. cbn [total_len fold_right] in Hsum.
    assert (E : (0 <? remainbytes)%Z = false) by (apply Z.ltb_ge; lia).
    destruct fuel; cbn [Handler.upload_loop]; rewrite E;
      (split; [eauto|discriminate]).
  - destruct (0 <? remainbytes)%Z eqn:E.
    2:{ destruct fuel; cbn [Handler.upload_loop]; rewrite E;
          (split; [eauto|discriminate]). }
    apply Z.ltb_lt in E.
    destruct (readline_run w c q) as (r & Hread & Hrest).
    destruct (lines_of (rfile q)) as [|l ls] eqn:El.
    { rewrite take_nil in Hsum. cbn [total_len fold_right] in Hsum. lia. }
    cbn [hd tl list.take] in *.
    apply Forall_cons_1 in Hno as [Hl Hls].
    cbn [total_len fold_right] in Hsum. fold (total_len (firstn n ls)) in Hsum.
    destruct fuel as [|fuel]; cbn [Handler.upload_loop];
      (replace (0 <? remainbytes)%Z with true by (symmetry; now apply Z.ltb_lt));
      [split; [intros Hfuel; exfalso; lia|discriminate]|].
    erewrite bind_done by exact Hread. unfold no_boundary in Hl. rewrite Hl.
    unfold bind at 1, Os.write at 1, set_world at 1. cbn [os cls self].
    match goal with
    | |- context [Handler.upload_loop fuel fn boundary ?rb l (Machine ?w' c ?q')] =>
        destruct (IH fuel fn boundary rb l w' c q') as [Hdone Hnever]
    end.
    + cbn [rfile with_rfile]. now rewrite Hrest.
    + cbn [rfile with_rfile]. rewrite Hrest. lia.
    + split; [intros Hfuel; apply Hdone; lia|exact Hnever].
Qed.

Lemma open_wb_ok w c q fn :
  creatable w fn = true ->
  Handler.except_IOError (Os.open_wb fn ;;; ret true) (ret false)
    (Machine w c q)
  = Done true (Machine (opened fn w) c q).
Proof.
  intros H. unfold Handler.except_IOError, Os.open_wb, bind, the_world.
  cbn [os]. now rewrite H.
Qed.

Lemma open_wb_refused w c q fn :
  creatable w fn = false ->
  Handler.except_IOError (Os.open_wb fn ;;; ret true) (ret false)
    (Machine w c q)
  = Done false (Machine w c q).
Proof.
  intros H. unfold Handler.except_IOError, Os.open_wb, bind, the_world.
  cbn [os]. now rewrite H.
Qed.

(** With the boundary on the first line, a file name on the second and a
    destination that can be created, the parser reads four lines, opens the
    destination and enters its loop with the fourth line pending. *)
Lemma deal_post_data_enters_loop fuel w c q p0 boundary ps fn0 fns :
  split_on "=" (plisttext q) = p0 :: boundary :: ps ->
  contains boundary (body_line q 0) = true ->
  Re.findall Handler.disposition_pattern (body_line q 1) = fn0 :: fns ->
  creatable w (Os.path_join (translated q) fn0) = true ->
  exists r,
    lines_of r = skipn 4 (lines_of (rfile q))
    /\ Handler.deal_post_data fuel (Machine w c q)
       = Handler.upload_loop fuel (Os.path_join (translated q) fn0) boundary
           (count_at_loop q) (body_line q 3)
           (Machine (opened (Os.path_join (translated q) fn0) w) c
                    (with_rfile r q)).
Proof.
  intros Hsplit Hfirst Hname Hopen.
  destruct (readline_run w c q) as (r1 & R1 & L1).
  destruct (readline_run w c (with_rfile r1 q)) as (r2 & R2 & L2).
  destruct (readline_run w c (with_rfile r2 (with_rfile r1 q)))
    as (r3 & R3 & L3).
  destruct (readline_run
              (opened (Os.path_join (translated q) fn0) w) c
              (with_rfile r3 (with_rfile r2 (with_rfile r1 q))))
    as (r4 & R4 & L4).
  cbn [rfile with_rfile] in *.
  assert (H0 : hd EmptyString (lines_of (rfile q)) = body_line q 0)
    by (unfold body_line; now destruct (lines_of (rfile q))).
  assert (H1 : hd EmptyString (lines_of r1) = body_line q 1)
    by (rewrite L1; unfold body_line;
        now destruct (lines_of (rfile q)) as [|? [|? ?]]).
  assert (H2 : hd EmptyString (lines_of r2) = body_line q 2)
    by (rewrite L2, L1; unfold body_line;
        now destruct (lines_of (rfile q)) as [|? [|? [|? ?]]]).
  assert (H3 : hd EmptyString (lines_of r3) = body_line q 3)
    by (rewrite L3, L2, L1; unfold body_line;
        now destruct (lines_of (rfile q)) as [|? [|? [|? [|? ?]]]]).
  rewrite H0 in R1. rewrite H1 in R2. rewrite H2 in R3. rewrite H3 in R4.
  exists r4. split.
  - rewrite L4, L3, L2, L1.
    now destruct (lines_of (rfile q)) as [|? [|? [|? [|? ?]]]].
  - unfold Handler.deal_post_data, bind at 1, the_request at 1. cbn [self].
    rewrite Hsplit. erewrite bind_done by exact R1. rewrite Hfirst.
    cbn [negb]. erewrite bind_done by exact R2. rewrite Hname.
    cbn [translated with_rfile].
    erewrite bind_done by exact R3.
    erewrite bind_done by (apply open_wb_ok; exact Hopen).
    cbn [negb].
    erewrite bind_done by exact R4.
    unfold count_at_loop. cbn [content_length with_rfile].
    reflexivity.
Qed.

(** C6.  Past the header (boundary on the first line, a file name on the
    second, a destination that can be created), when the count left at the
    start of the loop is used up by the next [n] lines and none of them
    holds the boundary, the parser returns the failure "Unexpect Ends of
    data." after at most [n] passes of its loop, and it never returns
    success. *)
Theorem upload_truncated fuel n w c q p0 boundary ps fn0 fns :
  split_on "=" (plisttext q) = p0 :: boundary :: ps ->
  contains boundary (body_line q 0) = true ->
  Re.findall Handler.disposition_pattern (body_line q 1) = fn0 :: fns ->
  creatable w (Os.path_join (translated q) fn0) = true ->
  Forall (no_boundary boundary) (firstn n (skipn 4 (lines_of (rfile q)))) ->
  (count_at_loop q
     - total_len (firstn n (skipn 4 (lines_of (rfile q)))) <= 0)%Z ->
  ((n <= fuel)%nat ->
     exists m', Handler.deal_post_data fuel (Machine w c q)
                = Done (false, "Unexpect Ends of data.") m')
  /\ (forall msg m', Handler.deal_post_data fuel (Machine w c q)
                     <> Done (true, msg) m').
Proof.
  intros Hsplit Hfirst Hname Hopen Hno Hsum.
  destruct (deal_post_data_enters_loop fuel w c q p0 boundary ps fn0 fns
              Hsplit Hfirst Hname Hopen) as (r & Hr & ->).
  apply upload_loop_exhausted with (n := n); cbn [rfile with_rfile];
    now rewrite Hr.
Qed.

Lemma upload_truncated_witness :
  exists m',
    Handler.deal_post_data 1 (Machine Sample.world0 Sample.class0 cut_request)
    = Done (false, "Unexpect Ends of data.") m'.
Proof.
  destruct (upload_truncated 1 1 Sample.world0 Sample.class0 cut_request
              "; boundary" "B" [] "a.txt" []) as [Hdone _].
  - reflexivity.
  - reflexivity.
  - reflexivity.
  - reflexivity.
  - vm_compute. repeat constructor.
  - vm_compute. discriminate.
  - apply Hdone. lia.
Defined.

(** When the stream ends while bytes are still counted as left, every
    further [readline] returns the empty string, the count stays as it is
    and the loop goes on for ever (for a boundary that is not empty). *)
Lemma upload_loop_starved fuel : forall fn boundary remainbytes preline w c q,
  (0 < remainbytes)%Z ->
  rfile q = EmptyString ->
  contains boundary EmptyString = false ->
  Handler.upload_loop fuel fn boundary remainbytes preline (Machine w c q)
  = Spinning.
Proof.
  induction fuel as [|fuel IH]; intros fn boundary remainbytes preline w c q
    Hpos Heof Hb; cbn [Handler.upload_loop];
    (replace (0 <? remainbytes)%Z with true by (symmetry; now apply Z.ltb_lt));
    [reflexivity|].
  unfold bind at 1, Handler.readline, bind at 1, the_request. cbn [self].
  rewrite Heof. cbn [Handler.line_of].
  unfold bind at 1, set_request at 1. cbn [os cls self].
  unfold ret at 1. rewrite Hb.
  unfold bind at 1, Os.write, set_world. cbn [os cls self].
  apply IH; auto.
  unfold len. cbn. lia.
Qed.

(** *** The boundary line is recognised (C2) *)

Lemma drop_last_snoc s c : drop_last (s ++ str1 c) = s.
Proof.
  induction s as [|a s IH]; [reflexivity|].
  destruct s as [|b s]; [reflexivity|].
  transitivity (String a (drop_last (String b s ++ str1 c)));
    [reflexivity|now rewrite IH].
Qed.

Lemma last_byte_snoc s c : last_byte (s ++ str1 c) = Some c.
Proof.
  induction s as [|a s IH]; [reflexivity|].
  destruct s as [|b s]; [reflexivity|].
  transitivity (last_byte (String b s ++ str1 c)); [reflexivity|exact IH].
Qed.

Lemma append_snoc_snoc s a b :
  s ++ String a (str1 b) = (s ++ str1 a) ++ str1 b.
Proof.
  induction s as [|c s IH]; [reflexivity|].
  change (String c (s ++ String a (str1 b))
          = String c ((s ++ str1 a) ++ str1 b)).
  now rewrite IH.
Qed.

Lemma strip_pending_crlf s : Handler.strip_pending (s ++ CRLF) = s.
Proof.
  unfold Handler.strip_pending, CRLF.
  rewrite append_snoc_snoc, drop_last_snoc.
  unfold endswith_byte. rewrite last_byte_snoc. cbn. apply drop_last_snoc.
Qed.

Lemma strip_pending_lf s :
  endswith_byte CR s = false -> Handler.strip_pending (s ++ str1 LF) = s.
Proof.
  intros H. unfold Handler.strip_pending. rewrite drop_last_snoc. now rewrite H.
Qed.

(** One pass of the loop that reads a line holding the boundary: the
    pending line, stripped, is the last thing written; the destination is
    closed and the parser reports success. *)
Lemma upload_loop_boundary fuel fn boundary remainbytes preline w c q :
  (0 < remainbytes)%Z ->
  contains boundary (hd EmptyString (lines_of (rfile q))) = true ->
  exists r,
    lines_of r = tl (lines_of (rfile q))
    /\ Handler.upload_loop (S fuel) fn boundary remainbytes preline
         (Machine w c q)
       = Done (true, "File '" ++ fn ++ "' upload success!")
              (Machine (finished fn (Handler.strip_pending preline) w) c
                       (with_rfile r q)).
Proof.
  intros Hpos Hline.
  destruct (readline_run w c q) as (r & Hread & Hrest).
  exists r. split; [exact Hrest|].
  cbn [Handler.upload_loop].
  replace (0 <? remainbytes)%Z with true by (symmetry; now apply Z.ltb_lt).
  erewrite bind_done by exact Hread. rewrite Hline.
  reflexivity.
Qed.

(** C2.  For the body [--B], the disposition line naming [a.txt], an empty
    line, [HELLO], [--B--] (each ended by CR LF) with boundary [B] and the
    matching length, the parser leaves exactly the bytes [HELLO] in the
    destination file, closes it and returns success.  In general, when a
    line holding the boundary is read, the final write is the pending line
    without its last byte and without a carriage return before it: a
    pending line [s CR LF] is written as [s], and so is a pending line
    [s LF]. *)
Theorem upload_happy_path fuel w c dir :
  let fn := Os.path_join dir "a.txt" in
  creatable w fn = true ->
  (1 <= fuel)%nat ->
  (exists m',
     Handler.deal_post_data fuel (Machine w c (happy_request dir))
       = Done (true, "File '" ++ fn ++ "' upload success!") m'
     /\ files (os m') = <[fn := "HELLO"]> (files w)
     /\ handles (os m') = filter (fun h => h <> fn) (handles w)
     /\ cls m' = c
     /\ rfile (self m') = EmptyString)
  /\ (forall fuel' fn' boundary remainbytes preline w' c' q',
        (0 < remainbytes)%Z ->
        contains boundary (hd EmptyString (lines_of (rfile q'))) = true ->
        exists r,
          Handler.upload_loop (S fuel') fn' boundary remainbytes preline
            (Machine w' c' q')
          = Done (true, "File '" ++ fn' ++ "' upload success!")
                 (Machine (finished fn' (Handler.strip_pending preline) w') c'
                          (with_rfile r q')))
  /\ (forall s, Handler.strip_pending (s ++ CRLF) = s)
  /\ (forall s, endswith_byte CR s = false ->
                Handler.strip_pending (s ++ str1 LF) = s).
Proof.
  intros fn Hopen Hfuel. repeat split.
  - assert (Efn : fn = Os.path_join (translated (happy_request dir)) "a.txt")
      by reflexivity.
    clearbody fn. subst fn.
    destruct (deal_post_data_enters_loop fuel w c (happy_request dir)
                "; boundary" "B" [] "a.txt" [] eq_refl eq_refl eq_refl Hopen)
      as (r & Hr & ->).
    destruct fuel as [|fuel]; [lia|].
    destruct (upload_loop_boundary fuel
                (Os.path_join (translated (happy_request dir)) "a.txt") "B"
                (count_at_loop (happy_request dir))
                (body_line (happy_request dir) 3)
                (opened (Os.path_join (translated (happy_request dir)) "a.txt") w) c
                (with_rfile r (happy_request dir)))
      as (r' & Hr' & ->).
    + reflexivity.
    + cbn [rfile with_rfile]. rewrite Hr. reflexivity.
    + eexists. split; [reflexivity|].
      cbn [os cls self finished opened with_handles with_files files handles
           rfile with_rfile].
      repeat split.
      * rewrite lookup_insert_eq, insert_insert_eq. reflexivity.
      * rewrite filter_cons_False by (intros H; now apply H). reflexivity.
      * cbn [rfile with_rfile] in Hr'. rewrite Hr in Hr'.
        destruct r' as [|a r']; [reflexivity|].
        rewrite (line_of_lines (String a r')) in Hr'. discriminate Hr'.
  - intros fuel' fn' boundary remainbytes preline w' c' q' Hpos Hline.
    destruct (upload_loop_boundary fuel' fn' boundary remainbytes preline
                w' c' q' Hpos Hline) as (r & _ & Hrun).
    exists r. exact Hrun.
  - apply strip_pending_crlf.
  - apply strip_pending_lf.
Qed.

Lemma upload_happy_path_witness :
  exists m',
    Handler.deal_post_data 1
      (Machine Sample.world0 Sample.class0 (happy_request "/srv/up"))
    = Done (true, "File '/srv/up/a.txt' upload success!") m'
    /\ files (os m') !! "/srv/up/a.txt" = Some "HELLO".
Proof.
  destruct (upload_happy_path 1 Sample.world0 Sample.class0 "/srv/up")
    as [(m' & Hrun & Hfiles & _) _].
  - reflexivity.
  - lia.
  - exists m'. split; [exact Hrun|]. rewrite Hfiles. apply lookup_insert_eq.
Defined.

End Upload.

(** ** Two callers on two threads (C9) *)

Section Race.

(** One step of a thread keeps the number of copies of [x] in the pool and
    in the hands of the threads from growing, as long as no scan lists
    [x]; [others] counts the copies the other thread holds. *)
Lemma step_keeps_copies x w c l w' c' l' others :
  step (w, c) l = ((w', c'), l') ->
  generate_dummy_files c = false ->
  never_listed x w ->
  appends_other x l ->
  (copies x (pool_of_files c) + takes x l + others <= 1)%nat ->
  generate_dummy_files c' = false
  /\ never_listed x w'
  /\ appends_other x l'
  /\ (copies x (pool_of_files c') + takes x l' + others <= 1)%nat.
Proof.
  intros Hstep Hgen Hnever Hap Hcount.
  destruct l as [| | |entries| |f|f id|f id|f id|d|e]; cbn [step] in Hstep.
  - destruct (Z.of_nat (length (pool_of_files c)) <? 1)%Z;
      injection Hstep as <- <- <-; auto.
  - rewrite Hgen in Hstep. injection Hstep as <- <- <-. auto.
  - destruct (Z.of_nat (length (pool_of_files c)) <? 1)%Z;
      injection Hstep as <- <- <-; auto.
    repeat split; auto. cbn. apply Hnever.
  - destruct entries as [|entry entries]; injection Hstep as <- <- <-;
      [exact (conj Hgen (conj Hnever (conj I Hcount)))|].
    cbn [appends_other map In] in Hap.
    refine (conj Hgen (conj Hnever (conj _ _))).
    + cbn. tauto.
    + cbn [pool_of_files with_pool]. unfold copies in *.
      rewrite count_occ_app. cbn [count_occ].
      destruct (string_dec (Os.basename entry) x); [tauto|].
      unfold takes in *. cbn [holding] in *. lia.
  - destruct (pool_of_files c) as [|y pool'] eqn:E;
      injection Hstep as <- <- <-;
      [rewrite E; exact (conj Hgen (conj Hnever (conj I Hcount)))|].
    refine (conj Hgen (conj Hnever (conj I _))).
    cbn [pool_of_files with_pool]. unfold copies, takes in *.
    cbn [holding count_occ] in *.
    destruct (string_dec y x); lia.
  - injection Hstep as <- <- <-. repeat split; auto.
  - injection Hstep as <- <- <-. repeat split; auto.
  - injection Hstep as <- <- <-. repeat split; auto.
  - injection Hstep as <- <- <-. repeat split; auto.
  - injection Hstep as <- <- <-. repeat split; auto.
  - injection Hstep as <- <- <-. repeat split; auto.
Qed.

Lemma turn_keeps_at_most_one x first cf :
  at_most_one x cf -> at_most_one x (turn first cf).
Proof.
  intros (Hgen & Hnever & Hap1 & Hap2 & Hcount).
  destruct cf as [[w c] l1 l2]. cbn [state thread1 thread2 fst snd] in *.
  unfold turn. cbn [state thread1 thread2]. destruct first.
  - destruct (step (w, c) l1) as [[w' c'] l'] eqn:Hstep.
    destruct (step_keeps_copies x w c l1 w' c' l' (takes x l2)
                Hstep Hgen Hnever Hap1) as (? & ? & ? & ?); [lia|].
    repeat split; auto.
  - destruct (step (w, c) l2) as [[w' c'] l'] eqn:Hstep.
    destruct (step_keeps_copies x w c l2 w' c' l' (takes x l1)
                Hstep Hgen Hnever Hap2) as (? & ? & ? & ?); [lia|].
    repeat split; auto. cbn [state thread1 thread2 fst snd]. lia.
Qed.

Lemma run_keeps_at_most_one x schedule : forall cf,
  at_most_one x cf -> at_most_one x (run schedule cf).
Proof.
  induction schedule as [|first schedule IH]; intros cf H; [exact H|].
  cbn [run]. apply IH. now apply turn_keeps_at_most_one.
Qed.

(** A thread that runs alone on a non-empty pool makes the six steps of
    [do_get_task] and ends with the descriptor and the shared state the
    sequential handler gives. *)
Lemma thread_alone_agrees fuel w c q x pool' :
  pool_of_files c = x :: pool' ->
  exists d m',
    run [true; true; true; true; true; true] (start w c)
      = Config (os m', cls m') (Finished d) AtCheck
    /\ Handler.do_get_task fuel (Machine w c q) = Done tt m'
    /\ descriptor (task_reply x (clock w (ticks w))) = Some d.
Proof.
  intros Hpool. eexists _, _. split; [|split].
  2: apply do_get_task_nonempty; exact Hpool.
  2: reflexivity.
  unfold start. cbn [run turn state thread1 thread2 step].
  rewrite Hpool. cbn [length].
  replace (Z.of_nat (S (length pool')) <? 1)%Z with false
    by (symmetry; apply Z.ltb_ge; lia).
  cbn [step turn state thread1 thread2]. rewrite Hpool.
  cbn -[strftime gmtime Handler.out_file_of Handler.log_file_of].
  destruct c as [rd gen pool oid reg cur]. reflexivity.
Qed.

(** So does a thread that runs alone on the empty pool of the sample
    server, through the two empty scans and the refill. *)
Example thread_alone_refills :
  let cf := run (repeat true 16) (start Sample.world0 Sample.class0) in
  match Handler.do_get_task 3 Sample.machine0 with
  | Done _ m' =>
      delivered (thread1 cf) = in_file <$> descriptor (wfile (self m'))
      /\ delivered (thread1 cf) = Some "EUC_LE1_VIS-W-1.fits"
      /\ pool_of_files (snd (state cf)) = pool_of_files (cls m')
      /\ current_file (snd (state cf)) = current_file (cls m')
      /\ polls (fst (state cf)) = polls (os m')
      /\ ticks (fst (state cf)) = ticks (os m')
  | _ => False
  end.
Proof. vm_compute. repeat split. Qed.

(** C9, as the code has it (directory scan mode, the mode the class body
    selects).  Starting from a pool that holds the one work item [x], and
    provided no directory scan lists [x] again, no interleaving of the
    statements of two [get_task] calls sends [x] to both callers. *)
Theorem racing_callers_never_share schedule w c x :
  generate_dummy_files c = false ->
  pool_of_files c = [x] ->
  never_listed x w ->
  let final := run schedule (start w c) in
  ~ (delivered (thread1 final) = Some x /\ delivered (thread2 final) = Some x).
Proof.
  intros Hgen Hpool Hnever final [H1 H2].
  assert (Hinv : at_most_one x final).
  { apply run_keeps_at_most_one. repeat split; cbn; auto.
    rewrite Hpool. unfold copies, takes. cbn.
    destruct (string_dec x x); [lia|congruence]. }
  destruct Hinv as (_ & _ & _ & _ & Hcount).
  unfold takes in Hcount.
  destruct (thread1 final); try discriminate H1.
  destruct (thread2 final); try discriminate H2.
  cbn [delivered holding] in *.
  injection H1 as H1. injection H2 as H2. rewrite H1, H2 in Hcount.
  destruct (string_dec x x); [lia|congruence].
Qed.

Lemma racing_callers_never_share_witness :
  let final := run alternating (start quiet_world one_item) in
  delivered (thread1 final) = Some "EUC_LE1_VIS-W-1.fits"
  /\ thread2 final = Failed IndexError
  /\ ~ (delivered (thread1 final) = Some "EUC_LE1_VIS-W-1.fits"
        /\ delivered (thread2 final) = Some "EUC_LE1_VIS-W-1.fits").
Proof.
  split; [reflexivity|]. split; [reflexivity|].
  apply (racing_callers_never_share alternating quiet_world one_item
           "EUC_LE1_VIS-W-1.fits").
  - reflexivity.
  - reflexivity.
  - intros k pattern [H|[]]. discriminate H.
Defined.

(** C9 as stated fails: with the work item still in the input folder, the
    schedule that lets the first call finish before the second one starts
    sends [EUC_LE1_VIS-W-1.fits] to both callers; the second call finds the
    pool empty, scans the folder and is served the same file again. *)
Lemma racing_callers_share_after_refill :
  let final := run one_after_the_other (start busy_world one_item) in
  pool_of_files one_item = ["EUC_LE1_VIS-W-1.fits"]
  /\ delivered (thread1 final) = Some "EUC_LE1_VIS-W-1.fits"
  /\ delivered (thread2 final) = Some "EUC_LE1_VIS-W-1.fits".
Proof. repeat split. Qed.

End Race.

(** ** More on the upload parser *)

Section UploadMore.

Lemma append_assoc (a b c : string) : (a ++ b) ++ c = a ++ (b ++ c).
Proof.
  induction a as [|x a IH]; [reflexivity|].
  change (String x ((a ++ b) ++ c) = String x (a ++ (b ++ c))).
  now rewrite IH.
Qed.

Lemma total_len_nonneg ls : (0 <= total_len ls)%Z.
Proof.
  induction ls as [|l ls IH]; cbn [total_len fold_right]; [lia|].
  fold (total_len ls). unfold len. lia.
Qed.

Lemma lines_of_nil s : lines_of s = [] -> s = EmptyString.
Proof.
  destruct s as [|c s]; [reflexivity|].
  cbn [lines_of]. destruct (Ascii.eqb c LF); [discriminate|].
  destruct (lines_of s); discriminate.
Qed.

(** A header without [=] gives no boundary: the parser raises
    [IndexError]. *)
Lemma split_on_absent sep s :
  contains (str1 sep) s = false -> split_on sep s = [s].
Proof.
  induction s as [|a s IH]; [reflexivity|].
  cbn [contains startswith str1 split_on]. rewrite Ascii.eqb_sym.
  destruct (Ascii.eqb a sep); [discriminate|].
  intros H. now rewrite IH.
Qed.

(** The writes of the loop add up: the pending line and the lines after
    it, up to the first line that holds the boundary, end in the
    destination as [stored] says. *)
Lemma upload_loop_stores (ps : list string) : forall fuel fn boundary remainbytes preline w c q b more,
  lines_of (rfile q) = (ps ++ b :: more)%list ->
  Forall (no_boundary boundary) ps ->
  contains boundary b = true ->
  (total_len ps < remainbytes)%Z ->
  (length ps < fuel)%nat ->
  exists r,
    lines_of r = more
    /\ Handler.upload_loop fuel fn boundary remainbytes preline (Machine w c q)
       = Done (true, "File '" ++ fn ++ "' upload success!")
              (Machine (finished fn (stored preline ps) w) c (with_rfile r q)).
Proof.
  induction ps as [|l ps IH];
    intros fuel fn boundary remainbytes preline w c q b more
      Hlines Hno Hb Hcount Hfuel.
  - destruct fuel as [|fuel]; [cbn in Hfuel; lia|].
    cbn [total_len fold_right] in Hcount.
    destruct (upload_loop_boundary fuel fn boundary remainbytes preline w c q)
      as (r & Hr & Hrun); [lia|now rewrite Hlines|].
    exists r. split; [now rewrite Hr, Hlines|exact Hrun].
  - destruct fuel as [|fuel]; [cbn in Hfuel; lia|].
    cbn [length] in Hfuel.
    apply Forall_cons_1 in Hno as [Hl Hps].
    cbn [total_len fold_right] in Hcount. fold (total_len ps) in Hcount.
    assert (Hnn := total_len_nonneg ps).
    assert (Hlen : (0 <= len l)%Z) by (unfold len; lia).
    destruct (readline_run w c q) as (r1 & Hread & Hrest).
    rewrite Hlines in Hread, Hrest. cbn [hd tl app] in Hread, Hrest.
    cbn [Handler.upload_loop].
    replace (0 <? remainbytes)%Z with true by (symmetry; apply Z.ltb_lt; lia).
    erewrite bind_done by exact Hread. unfold no_boundary in Hl. rewrite Hl.
    unfold bind at 1, Os.write at 1, set_world at 1. cbn [os cls self].
    match goal with
    | |- context [Handler.upload_loop fuel fn boundary ?rb l (Machine ?w' c ?q')] =>
        destruct (IH fuel fn boundary rb l w' c q' b more) as (r & Hr & Hrun)
    end; auto; try lia.
    exists r. split; [exact Hr|]. rewrite Hrun. f_equal. f_equal.
    unfold finished, with_files, with_handles. cbn [files handles clock ticks
      listing polls creatable].
    f_equal. rewrite lookup_insert_eq, insert_insert_eq. cbn [default].
    f_equal. unfold stored.
    change (List.removelast (preline :: l :: ps))
      with (preline :: List.removelast (l :: ps)).
    change (List.last (preline :: l :: ps) EmptyString)
      with (List.last (l :: ps) EmptyString).
    cbn [join_lines fold_right]. fold (join_lines (List.removelast (l :: ps))).
    unfold id. now rewrite !append_assoc.
Qed.

(** When the stream ends on lines without the boundary while bytes are
    still counted as left, the loop never returns. *)
Lemma upload_loop_starves (ps : list string) : forall fuel fn boundary remainbytes preline w c q,
  lines_of (rfile q) = ps ->
  Forall (no_boundary boundary) ps ->
  contains boundary EmptyString = false ->
  (total_len ps < remainbytes)%Z ->
  Handler.upload_loop fuel fn boundary remainbytes preline (Machine w c q)
  = Spinning.
Proof.
  induction ps as [|l ps IH];
    intros fuel fn boundary remainbytes preline w c q Hlines Hno Hb Hcount.
  - apply upload_loop_starved; auto. now apply lines_of_nil.
  - apply Forall_cons_1 in Hno as [Hl Hps].
    cbn [total_len fold_right] in Hcount. fold (total_len ps) in Hcount.
    assert (Hnn := total_len_nonneg ps).
    assert (Hlen : (0 <= len l)%Z) by (unfold len; lia).
    destruct (readline_run w c q) as (r1 & Hread & Hrest).
    rewrite Hlines in Hread, Hrest. cbn [hd tl] in Hread, Hrest.
    destruct fuel as [|fuel]; cbn [Handler.upload_loop];
      (replace (0 <? remainbytes)%Z with true by (symmetry; apply Z.ltb_lt; lia));
      [reflexivity|].
    erewrite bind_done by exact Hread. unfold no_boundary in Hl. rewrite Hl.
    unfold bind at 1, Os.write at 1, set_world at 1. cbn [os cls self].
    apply IH; auto. lia.
Qed.

Lemma body_lines_given q l0 l1 l2 p rest :
  lines_of (rfile q) = l0 :: l1 :: l2 :: p :: rest ->
  body_line q 0 = l0 /\ body_line q 1 = l1 /\ body_line q 2 = l2
  /\ body_line q 3 = p /\ skipn 4 (lines_of (rfile q)) = rest.
Proof. intros H. unfold body_line. rewrite H. repeat split. Qed.

End UploadMore.

Section UploadErrors.

(** X1.  When the header parameters hold no [=], there is no boundary to
    take: the parser raises [IndexError] before it reads a byte, and the
    machine is as before. *)
Theorem upload_without_boundary_parameter fuel m :
  contains "=" (plisttext (self m)) = false ->
  Handler.deal_post_data fuel m = Raised IndexError m.
Proof.
  intros H. unfold Handler.deal_post_data, bind, the_request.
  now rewrite (split_on_absent "=" _ H).
Qed.

Lemma upload_without_boundary_parameter_witness :
  Handler.deal_post_data 3 Sample.machine0 = Raised IndexError Sample.machine0.
Proof.
  apply (upload_without_boundary_parameter 3 Sample.machine0). reflexivity.
Defined.

(** X2.  With the boundary on the first line but no file name on the
    second, the parser returns the failure "Can't find out file name..."
    after two lines; nothing has been opened or created. *)
Theorem upload_without_filename fuel w c q p0 boundary ps :
  split_on "=" (plisttext q) = p0 :: boundary :: ps ->
  contains boundary (body_line q 0) = true ->
  Re.findall Handler.disposition_pattern (body_line q 1) = [] ->
  exists r,
    Handler.deal_post_data fuel (Machine w c q)
      = Done (false, "Can't find out file name...")
             (Machine w c (with_rfile r q))
    /\ lines_of r = skipn 2 (lines_of (rfile q)).
Proof.
  intros Hsplit Hfirst Hname.
  destruct (readline_run w c q) as (r1 & R1 & L1).
  destruct (readline_run w c (with_rfile r1 q)) as (r2 & R2 & L2).
  cbn [rfile with_rfile] in *.
  assert (H0 : hd EmptyString (lines_of (rfile q)) = body_line q 0)
    by (unfold body_line; now destruct (lines_of (rfile q))).
  assert (H1 : hd EmptyString (lines_of r1) = body_line q 1)
    by (rewrite L1; unfold body_line;
        now destruct (lines_of (rfile q)) as [|? [|? ?]]).
  rewrite H0 in R1. rewrite H1 in R2.
  exists r2. split.
  - unfold Handler.deal_post_data, bind at 1, the_request at 1. cbn [self].
    rewrite Hsplit. erewrite bind_done by exact R1. rewrite Hfirst.
    cbn [negb]. erewrite bind_done by exact R2. rewrite Hname.
    reflexivity.
  - rewrite L2, L1. now destruct (lines_of (rfile q)) as [|? [|? ?]].
Qed.

Lemma upload_without_filename_witness :
  exists r,
    Handler.deal_post_data 3
      (Machine Sample.world0 Sample.class0 nameless_request)
    = Done (false, "Can't find out file name...")
           (Machine Sample.world0 Sample.class0 (with_rfile r nameless_request)).
Proof.
  destruct (upload_without_filename 3 Sample.world0 Sample.class0
              nameless_request "; boundary" "B" []) as (r & Hrun & _).
  - reflexivity.
  - reflexivity.
  - reflexivity.
  - exists r. exact Hrun.
Defined.



End UploadErrors.

Section UploadContent.

(** The parser on a body that passes its header with content lines
    [p :: ps] before the first later line holding the boundary. *)
Lemma deal_post_data_stores fuel w c q p0 boundary pieces fn0 fns
    l0 l1 l2 p (ps : list string) b more :
  split_on "=" (plisttext q) = p0 :: boundary :: pieces ->
  lines_of (rfile q) = (l0 :: l1 :: l2 :: p :: ps ++ b :: more)%list ->
  contains boundary l0 = true ->
  Re.findall Handler.disposition_pattern l1 = fn0 :: fns ->
  creatable w (Os.path_join (translated q) fn0) = true ->
  Forall (no_boundary boundary) ps ->
  contains boundary b = true ->
  (len l0 + len l1 + len l2 + len p + total_len ps < content_length q)%Z ->
  (length ps < fuel)%nat ->
  exists m',
    Handler.deal_post_data fuel (Machine w c q)
      = Done (true, "File '" ++ Os.path_join (translated q) fn0
                      ++ "' upload success!") m'
    /\ files (os m')
       = <[Os.path_join (translated q) fn0 := stored p ps]> (files w)
    /\ handles (os m')
       = filter (fun h => h <> Os.path_join (translated q) fn0) (handles w)
    /\ lines_of (rfile (self m')) = more
    /\ cls m' = c.
Proof.
  intros Hsplit Hlines H0 H1 Hopen Hno Hb Hcount Hfuel.
  destruct (body_lines_given q l0 l1 l2 p _ Hlines)
    as (E0 & E1 & E2 & E3 & E4).
  destruct (deal_post_data_enters_loop fuel w c q p0 boundary pieces fn0 fns
              Hsplit) as (r & Hr & ->);
    [now rewrite E0|now rewrite E1|exact Hopen|].
  rewrite E3, E4 in *.
  destruct (upload_loop_stores ps fuel (Os.path_join (translated q) fn0)
              boundary (count_at_loop q) p
              (opened (Os.path_join (translated q) fn0) w) c
              (with_rfile r q) b more) as (r' & Hr' & ->); auto.
  { unfold count_at_loop. rewrite E0, E1, E2, E3. lia. }
  eexists. split; [reflexivity|].
  cbn [os cls self finished opened with_handles with_files files handles
       rfile with_rfile].
  repeat split; auto.
  - rewrite lookup_insert_eq, insert_insert_eq. reflexivity.
  - rewrite filter_cons_False by (intros H; now apply H). reflexivity.
Qed.

(** X4.  Past the header, the parser stores the content lines up to the
    first line that holds the boundary token: every such line but the last
    goes to the destination as it is, the last one loses its line ending,
    and what follows the boundary line is not read.  The first content
    line is not looked at for the boundary. *)
Theorem upload_stores_content fuel w c q p0 boundary pieces fn0 fns
    l0 l1 l2 p (ps : list string) b more :
  split_on "=" (plisttext q) = p0 :: boundary :: pieces ->
  lines_of (rfile q) = (l0 :: l1 :: l2 :: p :: ps ++ b :: more)%list ->
  contains boundary l0 = true ->
  Re.findall Handler.disposition_pattern l1 = fn0 :: fns ->
  creatable w (Os.path_join (translated q) fn0) = true ->
  Forall (no_boundary boundary) ps ->
  contains boundary b = true ->
  (len l0 + len l1 + len l2 + len p + total_len ps < content_length q)%Z ->
  (length ps < fuel)%nat ->
  exists m',
    Handler.deal_post_data fuel (Machine w c q)
      = Done (true, "File '" ++ Os.path_join (translated q) fn0
                      ++ "' upload success!") m'
    /\ files (os m')
       = <[Os.path_join (translated q) fn0 := stored p ps]> (files w)
    /\ handles (os m')
       = filter (fun h => h <> Os.path_join (translated q) fn0) (handles w)
    /\ lines_of (rfile (self m')) = more
    /\ cls m' = c.
Proof. apply deal_post_data_stores. Qed.

Lemma upload_stores_content_witness :
  exists m',
    Handler.deal_post_data 2
      (Machine Sample.world0 Sample.class0 (two_line_request "a.txt" 91))
    = Done (true, "File '/srv/up/a.txt' upload success!") m'
    /\ files (os m') !! "/srv/up/a.txt" = Some ("HELLO" ++ CRLF ++ "WORLD").
Proof.
  destruct (upload_stores_content 2 Sample.world0 Sample.class0
              (two_line_request "a.txt" 91) "; boundary" "B" [] "a.txt" []
              ("--B" ++ CRLF) (disposition_line "a.txt") CRLF
              ("HELLO" ++ CRLF) ["WORLD" ++ CRLF] ("--B--" ++ CRLF) [])
    as (m' & Hrun & Hfiles & _).
  - reflexivity.
  - reflexivity.
  - reflexivity.
  - reflexivity.
  - reflexivity.
  - repeat constructor.
  - reflexivity.
  - vm_compute. reflexivity.
  - cbn. lia.
  - exists m'. split; [exact Hrun|]. rewrite Hfiles. apply lookup_insert_eq.
Defined.

(** X5.  The file name of the disposition line is joined to the
    translated path as it comes: a name that starts with a slash is the
    destination itself, whatever path the request was posted to, and the
    content is stored there. *)
Theorem upload_absolute_filename fuel w c q p0 boundary pieces fn0 fns
    l0 l1 l2 p (ps : list string) b more :
  startswith "/" fn0 = true ->
  split_on "=" (plisttext q) = p0 :: boundary :: pieces ->
  lines_of (rfile q) = (l0 :: l1 :: l2 :: p :: ps ++ b :: more)%list ->
  contains boundary l0 = true ->
  Re.findall Handler.disposition_pattern l1 = fn0 :: fns ->
  creatable w fn0 = true ->
  Forall (no_boundary boundary) ps ->
  contains boundary b = true ->
  (len l0 + len l1 + len l2 + len p + total_len ps < content_length q)%Z ->
  (length ps < fuel)%nat ->
  exists m',
    Handler.deal_post_data fuel (Machine w c q)
      = Done (true, "File '" ++ fn0 ++ "' upload success!") m'
    /\ files (os m') = <[fn0 := stored p ps]> (files w).
Proof.
  intros Habs Hsplit Hlines H0 H1 Hopen Hno Hb Hcount Hfuel.
  assert (E : Os.path_join (translated q) fn0 = fn0)
    by (unfold Os.path_join; now rewrite Habs).
  destruct (deal_post_data_stores fuel w c q p0 boundary pieces fn0 fns
              l0 l1 l2 p ps b more) as (m' & Hrun & Hfiles & _); auto.
  { now rewrite E. }
  rewrite E in *. exists m'. auto.
Qed.

Lemma upload_absolute_filename_witness :
  exists m',
    Handler.deal_post_data 2
      (Machine Sample.world0 Sample.class0 (two_line_request "/etc/motd" 95))
    = Done (true, "File '/etc/motd' upload success!") m'
    /\ files (os m') !! "/etc/motd" = Some ("HELLO" ++ CRLF ++ "WORLD").
Proof.
  destruct (upload_absolute_filename 2 Sample.world0 Sample.class0
              (two_line_request "/etc/motd" 95) "; boundary" "B" []
              "/etc/motd" []
              ("--B" ++ CRLF) (disposition_line "/etc/motd") CRLF
              ("HELLO" ++ CRLF) ["WORLD" ++ CRLF] ("--B--" ++ CRLF) [])
    as (m' & Hrun & Hfiles).
  - reflexivity.
  - reflexivity.
  - reflexivity.
  - reflexivity.
  - reflexivity.
  - reflexivity.
  - repeat constructor.
  - reflexivity.
  - vm_compute. reflexivity.
  - cbn. lia.
  - exists m'. split; [exact Hrun|]. rewrite Hfiles. apply lookup_insert_eq.
Defined.

(** X6.  When the body ends before the declared length is used up and no
    line after the first content line holds the boundary, the parser never
    returns: at the end of the stream [readline] gives the empty string,
    the count stays above zero and the loop goes round for ever. *)
Theorem upload_short_body_never_returns fuel w c q p0 boundary pieces fn0 fns :
  split_on "=" (plisttext q) = p0 :: boundary :: pieces ->
  contains boundary (body_line q 0) = true ->
  Re.findall Handler.disposition_pattern (body_line q 1) = fn0 :: fns ->
  creatable w (Os.path_join (translated q) fn0) = true ->
  contains boundary EmptyString = false ->
  Forall (no_boundary boundary) (skipn 4 (lines_of (rfile q))) ->
  (total_len (skipn 4 (lines_of (rfile q))) < count_at_loop q)%Z ->
  Handler.deal_post_data fuel (Machine w c q) = Spinning.
Proof.
  intros Hsplit Hfirst Hname Hopen Hb Hno Hcount.
  destruct (deal_post_data_enters_loop fuel w c q p0 boundary pieces fn0 fns
              Hsplit Hfirst Hname Hopen) as (r & Hr & ->).
  eapply upload_loop_starves; cbn [rfile with_rfile]; eauto.
Qed.

Lemma upload_short_body_never_returns_witness :
  Handler.deal_post_data 50
    (Machine Sample.world0 Sample.class0 starved_request)
  = Spinning.
Proof.
  apply (upload_short_body_never_returns 50 Sample.world0 Sample.class0
           starved_request "; boundary" "B" [] "a.txt" []).
  - reflexivity.
  - reflexivity.
  - reflexivity.
  - reflexivity.
  - reflexivity.
  - vm_compute. repeat constructor.
  - vm_compute. reflexivity.
Defined.

End UploadContent.

(** ** More on the task pool and the registry *)

Section PoolMore.

(** What [send_content] puts on the wire: the status line 200 whatever
    the code, the content type when there is one, and the end of the
    headers unless more are to come. *)
Lemma send_content_wire code mimetype more w c q :
  Handler.send_content code mimetype more (Machine w c q)
  = Done tt (Machine w c
      (with_wfile
         (wfile q ++ Status 200 ::
            match mimetype with
            | EmptyString => []
            | _ => Header "Content-type" mimetype
                   :: (if more then [] else [EndHeaders])
            end) q)).
Proof.
  unfold Handler.send_content, Handler.emit, bind, set_request.
  cbn [os cls self].
  destruct mimetype as [|a s].
  - reflexivity.
  - replace (0 <? len (String a s))%Z with true
      by (symmetry; apply Z.ltb_lt; unfold len; cbn [String.length]; lia).
    destruct more; cbn; rewrite <- ?app_assoc; reflexivity.
Qed.

Lemma do_end_task_moves w c q id f data :
  task_inputs c !! id = Some f ->
  files w !! input_path f = Some data ->
  creatable w (processed_path f) = true ->
  Handler.do_end_task id (Machine w c q)
  = Done tt (Machine
      (with_files (<[processed_path f := data]> (delete (input_path f) (files w))) w)
      c (with_wfile (wfile q ++ bare_200) q)).
Proof.
  intros Hreg Hfile Hdst.
  unfold Handler.do_end_task, Os.rename, bind, the_class, the_world.
  cbn [cls os self]. rewrite Hreg. cbn [os].
  change ("./" ++ input_files_dir ++ "/" ++ f) with (input_path f).
  change ("./" ++ processed_files_dir ++ "/" ++ f) with (processed_path f).
  rewrite Hfile, Hdst. unfold set_world. cbn [os cls self].
  apply send_content_wire.
Qed.

Lemma do_end_task_source_missing w c q id f :
  task_inputs c !! id = Some f ->
  files w !! input_path f = None ->
  Handler.do_end_task id (Machine w c q)
  = Raised (OSError (input_path f)) (Machine w c q).
Proof.
  intros Hreg Hfile.
  unfold Handler.do_end_task, Os.rename, bind, the_class, the_world.
  cbn [cls os self]. rewrite Hreg. cbn [os].
  change ("./" ++ input_files_dir ++ "/" ++ f) with (input_path f).
  now rewrite Hfile.
Qed.

Lemma serve_run (handler : M unit) m m' :
  handler (fresh m) = Done tt m' ->
  serve handler m = Done (wfile (self m')) m'.
Proof.
  intros H. unfold serve, bind at 1, set_request at 1.
  change (Machine (os m) (cls m) (with_wfile [] (self m))) with (fresh m).
  unfold bind at 1. rewrite H. reflexivity.
Qed.

(** X7.  [end_task] leaves the registry as it is, so the same id can be
    sent again; the second call finds the input file gone and raises the
    [OSError] of [os.rename], which nothing catches: no reply, no
    change. *)
Theorem end_task_twice m id f data :
  task_inputs (cls m) !! id = Some f ->
  files (os m) !! input_path f = Some data ->
  creatable (os m) (processed_path f) = true ->
  exists m',
    Handler.do_end_task id m = Done tt m'
    /\ task_inputs (cls m') !! id = Some f
    /\ Handler.do_end_task id m' = Raised (OSError (input_path f)) m'.
Proof.
  intros Hreg Hfile Hdst. destruct m as [w c q]. cbn [cls os] in *.
  eexists. split; [eapply do_end_task_moves; eassumption|].
  cbn [cls]. split; [exact Hreg|].
  apply do_end_task_source_missing; [exact Hreg|].
  cbn [files with_files].
  rewrite lookup_insert_ne by (apply not_eq_sym, input_not_processed).
  apply lookup_delete_eq.
Qed.

Lemma end_task_twice_witness :
  exists m',
    Handler.do_end_task "QDTsrv_20170714-024000" after_first_task = Done tt m'
    /\ Handler.do_end_task "QDTsrv_20170714-024000" m'
       = Raised (OSError "./input/EUC_LE1_VIS-W-1.fits") m'.
Proof.
  destruct (end_task_twice after_first_task "QDTsrv_20170714-024000"
              "EUC_LE1_VIS-W-1.fits" "first") as (m' & H1 & _ & H2).
  - vm_compute. reflexivity.
  - vm_compute. reflexivity.
  - reflexivity.
  - exists m'. split; [exact H1|exact H2].
Defined.







End PoolMore.

(** ** The synthetic refill *)

Section Synthetic.

Lemma synthesised_trans a b m m1 m2 :
  synthesised a m m1 -> synthesised b m1 m2 -> synthesised (a + b) m m2.
Proof.
  intros (n1 & L1 & P1 & O1 & T1 & S1 & R1 & G1 & C1 & F1 & K1)
         (n2 & L2 & P2 & O2 & T2 & S2 & R2 & G2 & C2 & F2 & K2).
  exists (n1 ++ n2)%list.
  split; [rewrite length_app; lia|].
  split; [rewrite P2, P1, app_assoc; reflexivity|].
  split; [rewrite O2, O1; lia|].
  split; [rewrite T2, T1; lia|].
  split; [congruence|]. split; [congruence|]. split; [congruence|].
  split; [congruence|].
  split.
  - intros n Hn. apply in_app_or in Hn as [Hn|Hn].
    + destruct (F1 n Hn) as [Hs Hf]. split; [exact Hs|]. now apply K2.
    + destruct (F2 n Hn) as [Hs Hf]. split; [exact Hs|].
      unfold dummy_path in *. now rewrite <- R1.
  - intros p Hp. apply K2, K1, Hp.
Qed.

Lemma synthesised_refl m : synthesised 0 m m.
Proof.
  exists []. cbn. rewrite app_nil_r, Z.add_0_r, Nat.add_0_r.
  repeat split; auto. all: contradiction.
Qed.

Lemma for_each_synthesised {A} (body : A -> M unit) k :
  (forall x m, (forall p, creatable (os m) p = true) ->
     exists m', body x m = Done tt m' /\ synthesised k m m') ->
  forall l m, (forall p, creatable (os m) p = true) ->
    exists m', for_each l body m = Done tt m'
               /\ synthesised (length l * k) m m'.
Proof.
  intros Hbody. induction l as [|x l IH]; intros m Hc; cbn [for_each length].
  - exists m. split; [reflexivity|apply synthesised_refl].
  - destruct (Hbody x m Hc) as (m1 & H1 & S1).
    assert (Hc1 : forall p, creatable (os m1) p = true).
    { destruct S1 as (? & _ & _ & _ & _ & _ & _ & _ & C & _).
      intros p. now rewrite C. }
    destruct (IH m1 Hc1) as (m2 & H2 & S2).
    exists m2. split; [now erewrite bind_done by exact H1|].
    cbn [Nat.mul]. eapply synthesised_trans; eassumption.
Qed.

Lemma new_dummy_file_run x dither w c q :
  creatable w (dummy_path c
                 (synthetic_name (obs_id c) dither x (clock w (ticks w)))) = true ->
  Handler.new_dummy_file x dither (Machine w c q)
  = Done tt (Machine
      (with_files
         (<[dummy_path c (synthetic_name (obs_id c) dither x (clock w (ticks w)))
            := Handler.primary_hdu]> (files w))
         (with_ticks (S (ticks w)) w))
      (with_obs_id (obs_id c + 1)
         (with_pool (pool_of_files c
                       ++ [synthetic_name (obs_id c) dither x (clock w (ticks w))])
            c))
      q).
Proof.
  intros Hc.
  unfold Handler.new_dummy_file, Handler.create_dummy_file, Handler.pool_append,
    Os.time, bind, the_world, the_class, set_world, set_class, ret.
  cbn [os cls self rootdir with_pool creatable with_ticks obs_id].
  change (rootdir c ++ "/" ++ input_files_dir ++ "/" ++ ?n)
    with (dummy_path c n).
  fold (synthetic_name (obs_id c) dither x (clock w (ticks w))).
  rewrite Hc. reflexivity.
Qed.

Lemma new_dummy_file_refused x dither w c q :
  creatable w (dummy_path c
                 (synthetic_name (obs_id c) dither x (clock w (ticks w)))) = false ->
  Handler.new_dummy_file x dither (Machine w c q)
  = Raised (IOError (dummy_path c
              (synthetic_name (obs_id c) dither x (clock w (ticks w)))))
      (Machine (with_ticks (S (ticks w)) w)
         (with_pool (pool_of_files c
                       ++ [synthetic_name (obs_id c) dither x (clock w (ticks w))])
            c)
         q).
Proof.
  intros Hc.
  unfold Handler.new_dummy_file, Handler.create_dummy_file, Handler.pool_append,
    Os.time, bind, the_world, the_class, set_world, set_class, ret, raise.
  cbn [os cls self rootdir with_pool creatable with_ticks obs_id].
  change (rootdir c ++ "/" ++ input_files_dir ++ "/" ++ ?n)
    with (dummy_path c n).
  fold (synthetic_name (obs_id c) dither x (clock w (ticks w))).
  rewrite Hc. reflexivity.
Qed.

Lemma new_dummy_file_synthesised x dither m :
  (forall p, creatable (os m) p = true) ->
  exists m', Handler.new_dummy_file x dither m = Done tt m'
             /\ synthesised 1 m m'.
Proof.
  intros Hc. destruct m as [w c q]. cbn [os] in Hc.
  eexists. split; [apply new_dummy_file_run, Hc|].
  exists [synthetic_name (obs_id c) dither x (clock w (ticks w))].
  cbn [os cls self length pool_of_files obs_id ticks polls rootdir task_inputs
       creatable files with_files with_ticks with_obs_id with_pool].
  repeat split; try lia.
  - destruct H as [<-|[]]. reflexivity.
  - destruct H as [<-|[]]. apply lookup_insert_eq.
  - intros p Hp.
    destruct (decide (dummy_path c
                (synthetic_name (obs_id c) dither x (clock w (ticks w))) = p))
      as [<-|Hne].
    + apply lookup_insert_eq.
    + now rewrite lookup_insert_ne.
Qed.

(** X11.  In synthetic mode, when every file can be created, one refill
    appends forty names to the pool, creates the file of each under the
    input folder of the root directory, reads the clock forty times and
    moves the observation counter forty steps on; it scans no folder and
    leaves the registry alone. *)
Theorem synthetic_refill fuel m :
  generate_dummy_files (cls m) = true ->
  (forall p, creatable (os m) p = true) ->
  exists m',
    Handler.get_new_input_files fuel m = Done tt m'
    /\ synthesised 40 m m'.
Proof.
  intros Hgen Hc.
  unfold Handler.get_new_input_files, bind at 1, the_class at 1.
  rewrite Hgen.
  apply (for_each_synthesised _ 4
           (fun x m Hm => for_each_synthesised _ 1
              (new_dummy_file_synthesised x) (Handler.range 1 5) m Hm)
           (Handler.range 0 10) m Hc).
Qed.

Lemma synthetic_refill_witness :
  exists m',
    Handler.get_new_input_files 0
      (Machine Sample.world0 synthetic_class Sample.request0) = Done tt m'
    /\ length (pool_of_files (cls m')) = 40%nat
    /\ obs_id (cls m') = 12040%Z.
Proof.
  destruct (synthetic_refill 0
              (Machine Sample.world0 synthetic_class Sample.request0))
    as (m' & Hrun & names & Hlen & Hpool & Hobs & _).
  - reflexivity.
  - reflexivity.
  - exists m'. split; [exact Hrun|].
    cbn [cls pool_of_files synthetic_class app obs_id] in Hpool, Hobs.
    rewrite Hpool, Hlen, Hobs. split; reflexivity.
Defined.

(** X12.  The synthetic mode appends a name to the pool before it creates
    the file.  When the file cannot be created, [get_task] on an empty pool
    ends in the uncaught [IOError] with that name left in the pool, and the
    next [get_task] hands the name out although no file was created for
    it. *)
Theorem failed_refill_leaves_name fuel w c q :
  generate_dummy_files c = true ->
  pool_of_files c = [] ->
  (forall p, creatable w p = false) ->
  let name := synthetic_name (obs_id c) 1 0 (clock w (ticks w)) in
  exists m1,
    Handler.do_get_task fuel (Machine w c q)
      = Raised (IOError (dummy_path c name)) m1
    /\ pool_of_files (cls m1) = [name]
    /\ files (os m1) = files w
    /\ exists reply d m2,
         serve (Handler.do_get_task fuel) m1 = Done reply m2
         /\ descriptor reply = Some d
         /\ in_file d = name
         /\ files (os m2) = files w.
Proof.
  intros Hgen Hpool Hc name.
  assert (Hrefill : Handler.get_new_input_files fuel (Machine w c q)
            = Raised (IOError (dummy_path c name))
                (Machine (with_ticks (S (ticks w)) w)
                   (with_pool [name] c) q)).
  { unfold Handler.get_new_input_files, bind at 1, the_class at 1.
    cbn [cls]. rewrite Hgen.
    change (Handler.range 0 10) with (0%Z :: Handler.range 1 10).
    change (Handler.range 1 5) with (1%Z :: Handler.range 2 5).
    cbn [for_each].
    erewrite bind_raised; [reflexivity|].
    erewrite bind_raised; [reflexivity|].
    rewrite new_dummy_file_refused by apply Hc.
    rewrite Hpool. reflexivity. }
  eexists. split.
  - rewrite do_get_task_empty by exact Hpool.
    erewrite bind_raised by exact Hrefill. reflexivity.
  - cbn [cls os with_pool pool_of_files with_ticks files].
    split; [reflexivity|]. split; [reflexivity|].
    eexists _, _, _. split; [apply serve_get_task_nonempty; reflexivity|].
    repeat split.
Qed.

Lemma failed_refill_leaves_name_witness :
  exists m1 path,
    Handler.do_get_task 0 (Machine sealed_world synthetic_class Sample.request0)
      = Raised (IOError path) m1
    /\ length (pool_of_files (cls m1)) = 1%nat.
Proof.
  destruct (failed_refill_leaves_name 0 sealed_world synthetic_class
              Sample.request0) as (m1 & Hrun & Hpool & _).
  - reflexivity.
  - reflexivity.
  - reflexivity.
  - exists m1. eexists. split; [exact Hrun|]. now rewrite Hpool.
Defined.

End Synthetic.

(** ** The reply to an upload *)

Section Post.

Lemma do_POST_after fuel m r info m1 :
  Handler.deal_post_data fuel m = Done (r, info) m1 ->
  Http.do_POST fuel m
  = Done tt (Machine (os m1) (cls m1)
               (with_wfile (wfile (self m1) ++ post_reply r info) (self m1))).
Proof.
  intros H. unfold Http.do_POST. erewrite bind_done by exact H.
  destruct m1 as [w1 c1 q1].
  unfold bind at 1. rewrite send_content_wire.
  unfold Handler.emit, bind, set_request. cbn [os cls self wfile with_wfile].
  unfold post_reply, with_wfile. cbn [plisttext content_length translated rfile wfile].
  rewrite <- !app_assoc. reflexivity.
Qed.

(** The parser writes to the destination file only: the output stream of
    the request and the class attributes are as before when it returns. *)
Lemma upload_loop_frame fuel : forall fn boundary remainbytes preline w c q a m1,
  Handler.upload_loop fuel fn boundary remainbytes preline (Machine w c q)
    = Done a m1 ->
  wfile (self m1) = wfile q /\ cls m1 = c.
Proof.
  induction fuel as [|fuel IH];
    intros fn boundary remainbytes preline w c q a m1 Hrun;
    cbn [Handler.upload_loop] in Hrun;
    destruct (0 <? remainbytes)%Z; try discriminate Hrun;
    try (injection Hrun as <- <-; now split).
  destruct (readline_run w c q) as (r & Hread & _).
  erewrite bind_done in Hrun by exact Hread.
  destruct (contains boundary (hd EmptyString (lines_of (rfile q)))).
  - injection Hrun as <- <-. now split.
  - unfold bind at 1, Os.write at 1, set_world at 1 in Hrun.
    cbn [os cls self] in Hrun. apply IH in Hrun. exact Hrun.
Qed.

Lemma deal_post_data_frame fuel w c q a m1 :
  Handler.deal_post_data fuel (Machine w c q) = Done a m1 ->
  wfile (self m1) = wfile q /\ cls m1 = c.
Proof.
  intros Hrun. unfold Handler.deal_post_data, bind at 1, the_request at 1 in Hrun.
  cbn [self] in Hrun.
  destruct (split_on "=" (plisttext q)) as [|p0 [|boundary ps]];
    try discriminate Hrun.
  destruct (readline_run w c q) as (r1 & R1 & _).
  erewrite bind_done in Hrun by exact R1.
  destruct (contains boundary (hd EmptyString (lines_of (rfile q))));
    cbn [negb] in Hrun; [|injection Hrun as <- <-; now split].
  destruct (readline_run w c (with_rfile r1 q)) as (r2 & R2 & _).
  erewrite bind_done in Hrun by exact R2.
  destruct (Re.findall Handler.disposition_pattern
              (hd EmptyString (lines_of (rfile (with_rfile r1 q)))))
    as [|fn0 fns]; [injection Hrun as <- <-; now split|].
  destruct (readline_run w c (with_rfile r2 (with_rfile r1 q)))
    as (r3 & R3 & _).
  erewrite bind_done in Hrun by exact R3.
  cbn [translated with_rfile] in Hrun.
  destruct (creatable w (Os.path_join (translated q) fn0)) eqn:Hopen.
  - erewrite bind_done in Hrun by (apply open_wb_ok; exact Hopen).
    cbn [negb] in Hrun.
    destruct (readline_run (opened (Os.path_join (translated q) fn0) w) c
                (with_rfile r3 (with_rfile r2 (with_rfile r1 q))))
      as (r4 & R4 & _).
    erewrite bind_done in Hrun by exact R4.
    apply upload_loop_frame in Hrun. exact Hrun.
  - erewrite bind_done in Hrun by (apply open_wb_refused; exact Hopen).
    cbn [negb] in Hrun. injection Hrun as <- <-. now split.
Qed.

(** X13.  [do_POST] answers every upload the parser returns from, stored
    or not, with the status line 200 and a page that carries the
    parser's verdict and message; the [Content-Length] header it sends is
    the length of that page.  When the parser raises or does not return,
    no reply is sent. *)
Theorem do_POST_reply fuel m :
  match Handler.deal_post_data fuel (fresh m) with
  | Done (r, info) m1 =>
      serve (Http.do_POST fuel) m
      = Done (post_reply r info)
             (Machine (os m1) (cls m1) (with_wfile (post_reply r info) (self m1)))
  | Raised e m1 => serve (Http.do_POST fuel) m = Raised e m1
  | Spinning => serve (Http.do_POST fuel) m = Spinning
  end.
Proof.
  destruct (Handler.deal_post_data fuel (fresh m)) as [[r info] m1|e m1|] eqn:Hrun.
  - assert (Hframe := Hrun). unfold fresh in Hframe.
    apply deal_post_data_frame in Hframe as [Hw _]. cbn [wfile with_wfile] in Hw.
    erewrite serve_run by (apply do_POST_after; exact Hrun).
    cbn [self wfile with_wfile]. rewrite Hw. reflexivity.
  - unfold serve, bind at 1, set_request at 1.
    change (Machine (os m) (cls m) (with_wfile [] (self m))) with (fresh m).
    unfold bind at 1, Http.do_POST, bind at 1. now rewrite Hrun.
  - unfold serve, bind at 1, set_request at 1.
    change (Machine (os m) (cls m) (with_wfile [] (self m))) with (fresh m).
    unfold bind at 1, Http.do_POST, bind at 1. now rewrite Hrun.
Qed.

End Post.

(** ** Translated paths *)

Section Paths.

Lemma split_on_pieces sep s :
  Forall (fun piece => contains (str1 sep) piece = false) (split_on sep s).
Proof.
  induction s as [|a s IH]; cbn [split_on].
  - repeat constructor.
  - destruct (Ascii.eqb a sep) eqn:E.
    + constructor; [reflexivity|exact IH].
    + destruct (split_on sep s) as [|piece rest].
      * repeat constructor. cbn [contains startswith str1].
        rewrite Ascii.eqb_sym, E. reflexivity.
      * apply Forall_cons_1 in IH as [Hp Hr]. constructor; [|exact Hr].
        cbn [contains startswith str1]. rewrite Ascii.eqb_sym, E. exact Hp.
Qed.

Lemma basename_without_slash w : contains "/" w = false -> Os.basename w = w.
Proof. intros H. destruct w as [|a w]; [reflexivity|]. cbn [Os.basename]. now rewrite H. Qed.

Lemma startswith_append a b : startswith a (a ++ b) = true.
Proof.
  induction a as [|x a IH]; [reflexivity|].
  change (String x a ++ b) with (String x (a ++ b)).
  cbn [startswith]. now rewrite Ascii.eqb_refl.
Qed.

Lemma startswith_trans a b c :
  startswith a b = true -> startswith b c = true -> startswith a c = true.
Proof.
  revert b c. induction a as [|x a IH]; intros b c Hab Hbc; [reflexivity|].
  destruct b as [|y b]; [discriminate|]. destruct c as [|z c]; [discriminate|].
  cbn [startswith] in *.
  destruct (Ascii.eqb x y) eqn:Exy; [|discriminate].
  destruct (Ascii.eqb y z) eqn:Eyz; [|discriminate].
  apply Ascii.eqb_eq in Exy, Eyz. subst. rewrite Ascii.eqb_refl. eauto.
Qed.

Lemma startswith_refl a : startswith a a = true.
Proof. induction a as [|x a IH]; [reflexivity|]. cbn. now rewrite Ascii.eqb_refl. Qed.

Lemma path_join_below a w :
  plain_word w -> startswith a (Os.path_join a w) = true.
Proof.
  intros (Hne & _ & _ & Hslash). unfold Os.path_join.
  assert (E : startswith "/" w = false).
  { destruct w as [|x w]; [reflexivity|].
    cbn [contains] in Hslash.
    destruct (startswith "/" (String x w)); [discriminate|reflexivity]. }
  rewrite E. destruct (_ || _); apply startswith_append.
Qed.

Lemma fold_path_join_below ws : forall a,
  Forall plain_word ws -> startswith a (fold_left Os.path_join ws a) = true.
Proof.
  induction ws as [|w ws IH]; intros a H; cbn [fold_left].
  - apply startswith_refl.
  - apply Forall_cons_1 in H as [Hw Hws].
    eapply startswith_trans; [apply path_join_below; exact Hw|now apply IH].
Qed.

(** The loop of [translate_path] over words without slash: the words [.]
    and [..] fall out, the others are joined on. *)
Lemma translate_words ws : forall cwd,
  Forall (fun w => w <> EmptyString /\ contains "/" w = false) ws ->
  exists ws',
    Forall plain_word ws'
    /\ fold_left Http.translate_word ws cwd = fold_left Os.path_join ws' cwd.
Proof.
  induction ws as [|w ws IH]; intros cwd H; cbn [fold_left].
  - exists []. split; [constructor|reflexivity].
  - apply Forall_cons_1 in H as [[Hne Hslash] Hws].
    unfold Http.translate_word at 2. rewrite (basename_without_slash _ Hslash).
    destruct (String.eqb w ".") eqn:E1; cbn [orb].
    { apply IH, Hws. }
    destruct (String.eqb w "..") eqn:E2.
    { apply IH, Hws. }
    destruct (IH (Os.path_join cwd w) Hws) as (ws' & Hplain & Heq).
    exists (w :: ws'). split; [|exact Heq].
    constructor; [|exact Hplain].
    apply String.eqb_neq in E1, E2. repeat split; auto.
Qed.

(** X14.  Whatever [urllib.unquote] and [posixpath.normpath] make of the
    request path, [translate_path] returns the current directory with
    words joined on that are not empty, hold no slash and are neither [.]
    nor [..]: the result starts with the current directory, and no word of
    the request can step out of it. *)
Theorem translate_path_stays_below unquote normpath cwd path :
  exists ws,
    Forall plain_word ws
    /\ Http.translate_path unquote normpath cwd path
       = fold_left Os.path_join ws cwd
    /\ startswith cwd (Http.translate_path unquote normpath cwd path) = true.
Proof.
  unfold Http.translate_path.
  set (words := List.filter _ _).
  destruct (translate_words words cwd) as (ws & Hplain & Heq).
  - subst words. apply Forall_forall. intros w Hw.
    apply list_elem_of_In, filter_In in Hw as [Hin Hne]. split.
    + intros ->. discriminate Hne.
    + assert (H := split_on_pieces "/" (normpath (unquote
          (hd EmptyString (Http.split1 "#"
             (hd EmptyString (Http.split1 "?" path))))))).
      rewrite Forall_forall in H. apply H, list_elem_of_In, Hin.
  - exists ws. split; [exact Hplain|]. split; [exact Heq|].
    rewrite Heq. now apply fold_path_join_below.
Qed.

End Paths.

(** ** GET requests *)

Section GetRequests.

Lemma write_wire data w c q :
  Get.write data (Machine w c q)
  = Done tt (Machine w c (with_wfile (wfile q ++ [Body data]) q)).
Proof. reflexivity. Qed.

(** X15.  The [end_task] route needs the [task_id] parameter: without a
    query string (so always under the path [/end_task/]), or with a query
    string that does not give it, the request ends in the uncaught
    [KeyError] and nothing changes; with it, the first value given is the
    task that is ended. *)
Theorem end_task_route pf conn fuel m :
  (path conn = "/end_task" \/ path conn = "/end_task/" ->
     Get.do_GET pf conn fuel m = Raised (KeyError "task_id") m)
  /\ (forall query, path conn = "/end_task?" ++ query ->
        Get.do_GET pf conn fuel m
        = match parse_qs pf query !! "task_id" with
          | None => Raised (KeyError "task_id") m
          | Some [] => Raised IndexError m
          | Some (task_id :: _) => Handler.do_end_task task_id m
          end).
Proof.
  split.
  - intros [H|H]; unfold Get.do_GET; rewrite H; reflexivity.
  - intros query H. unfold Get.do_GET. rewrite H.
    change (Get.rpath_of ("/end_task?" ++ query)) with "/end_task".
    change (Get.args_of pf ("/end_task?" ++ query)) with (parse_qs pf query).
    cbn [String.eqb Ascii.eqb Bool.eqb orb append].
    destruct (parse_qs pf query !! "task_id") as [[|id ids]|]; reflexivity.
Qed.

Lemma end_task_route_witness :
  Get.do_GET sample_platform (get "/end_task/") 0 after_first_task
    = Raised (KeyError "task_id") after_first_task
  /\ Get.do_GET sample_platform
       (get "/end_task?task_id=QDTsrv_20170714-024000") 0 after_first_task
     = Handler.do_end_task "QDTsrv_20170714-024000" after_first_task.
Proof.
  destruct (end_task_route sample_platform (get "/end_task/") 0
              after_first_task) as [H1 _].
  destruct (end_task_route sample_platform
              (get "/end_task?task_id=QDTsrv_20170714-024000") 0
              after_first_task) as [_ H2].
  split.
  - apply H1. right. reflexivity.
  - rewrite (H2 "task_id=QDTsrv_20170714-024000" eq_refl). reflexivity.
Defined.

Lemma do_GET_plain pf conn fuel m :
  plain_path (path conn) ->
  Get.do_GET pf conn fuel m
  = Get.serve_path pf conn (Get.rpath_of (path conn)) m.
Proof.
  intros (H1 & H2 & H3 & H4 & H5 & H6). unfold Get.do_GET.
  apply String.eqb_neq in H1, H2, H3, H4, H5, H6.
  now rewrite H1, H2, H3, H4, H5, H6.
Qed.

Lemma send_file_wire path data w c q :
  files w !! path = Some data ->
  Get.send_file path (Machine w c q)
  = Done tt (Machine w c
      (with_wfile
         (wfile q ++
            [ Status 200;
              Header "Content-type"
                (default "text/html"
                   (Get.lookup_item (Get.lower (Get.splitext_ext path))
                      Get.content_type));
              EndHeaders; Body data ]) q)).
Proof.
  intros Hfile. unfold Get.send_file.
  assert (Hne : forall ext t,
            Get.lookup_item ext Get.content_type = Some t -> t <> EmptyString).
  { intros ext t H. unfold Get.content_type in H. cbn [Get.lookup_item] in H.
    repeat match type of H with
    | (if ?b then _ else _) = _ => destruct b; [injection H as <-; discriminate|]
    end. discriminate H. }
  destruct (Get.lookup_item _ Get.content_type) as [t|] eqn:E.
  - specialize (Hne _ _ E). unfold bind. rewrite send_content_wire.
    destruct t as [|a t]; [congruence|].
    unfold Get.write_file, bind, the_world. cbn [os]. rewrite Hfile.
    rewrite write_wire. cbn [wfile with_wfile default].
    unfold with_wfile. cbn [plisttext content_length translated rfile wfile].
    rewrite <- !app_assoc. reflexivity.
  - unfold bind. rewrite send_content_wire.
    unfold Get.write_file, bind, the_world. cbn [os]. rewrite Hfile.
    rewrite write_wire. cbn [wfile with_wfile default].
    unfold with_wfile. cbn [plisttext content_length translated rfile wfile].
    rewrite <- !app_assoc. reflexivity.
Qed.

(** X16.  A path that is none of the routes and names a stored file
    under the root directory is answered with the bytes of that file,
    unchanged, and a content type chosen by the extension of the name
    without regard to case, [text/html] when the extension is not in the
    table; a query string after the path is ignored. *)
Theorem stored_file_is_served pf conn fuel m data :
  plain_path (path conn) ->
  isdir pf (rootdir (cls m) ++ Get.rpath_of (path conn)) = false ->
  files (os m) !! (rootdir (cls m) ++ Get.rpath_of (path conn)) = Some data ->
  serve (Get.do_GET pf conn fuel) m
  = Done (file_reply (rootdir (cls m) ++ Get.rpath_of (path conn)) data)
         (Machine (os m) (cls m)
            (with_wfile
               (file_reply (rootdir (cls m) ++ Get.rpath_of (path conn)) data)
               (self m))).
Proof.
  intros Hplain Hdir Hfile. destruct m as [w c q]. cbn [os cls self] in *.
  assert (Hrun : Get.do_GET pf conn fuel (fresh (Machine w c q))
            = Done tt (Machine w c
                (with_wfile
                   (file_reply (rootdir c ++ Get.rpath_of (path conn)) data)
                   (with_wfile [] q)))).
  { unfold fresh. cbn [os cls self].
    rewrite (do_GET_plain _ _ _ _ Hplain).
    unfold Get.serve_path, bind, the_class, the_world. cbn [os cls].
    unfold Get.exists_, Get.isfile. cbn beta.
    repeat rewrite Hdir. repeat rewrite Hfile.
    rewrite bool_decide_eq_true_2 by eauto. cbn [orb andb negb].
    repeat rewrite Hdir. repeat rewrite Hfile.
    rewrite bool_decide_eq_true_2 by eauto. cbn [orb andb negb].
    rewrite (send_file_wire _ data) by exact Hfile. reflexivity. }
  rewrite (serve_run _ _ _ Hrun). reflexivity.
Qed.

Lemma stored_file_is_served_witness :
  serve (Get.do_GET sample_platform
           (get "/input/EUC_LE1_VIS-W-1.FITS?download=1") 0)
        (Machine site_world Sample.class0 Sample.request0)
  = Done [ Status 200; Header "Content-type" "application/fits"; EndHeaders;
           Body "first" ]
         (Machine site_world Sample.class0
            (with_wfile
               [ Status 200; Header "Content-type" "application/fits";
                 EndHeaders; Body "first" ] Sample.request0)).
Proof.
  apply (stored_file_is_served sample_platform
           (get "/input/EUC_LE1_VIS-W-1.FITS?download=1") 0
           (Machine site_world Sample.class0 Sample.request0) "first").
  - repeat split; intros H; vm_compute in H; discriminate H.
  - reflexivity.
  - vm_compute. reflexivity.
Defined.

Lemma write_again data w c l q :
  Get.write data (Machine w c (with_wfile l q))
  = Done tt (Machine w c (with_wfile (l ++ [Body data]) q)).
Proof. reflexivity. Qed.

Lemma access_error_wire pf conn rpath w c q :
  Get.access_error pf conn rpath (Machine w c q)
  = Done tt (Machine w c
      (with_wfile (wfile q ++ access_error_reply pf conn rpath) q)).
Proof.
  unfold Get.access_error. unfold bind at 1. rewrite send_content_wire.
  cbv beta iota.
  repeat (unfold bind at 1; rewrite write_again; cbv beta iota).
  rewrite write_again.
  unfold access_error_reply. rewrite <- !app_assoc. reflexivity.
Qed.

Lemma access_error_no_error_status pf conn rpath :
  ~ error_reply (access_error_reply pf conn rpath).
Proof.
  intros (code & Hin & Hrange). unfold access_error_reply in Hin.
  repeat (apply elem_of_cons in Hin as [Hin|Hin];
          [try discriminate Hin; injection Hin as ->; lia|]).
  now apply elem_of_nil in Hin.
Qed.

(** X17.  A path that is none of the routes and names neither a file nor
    a directory under the root is answered with the access error page
    under the status line 200: [send_content] is called with code 500 but
    sends 200 whatever the code, so the reply holds no error status.  The
    server state is untouched. *)
Theorem missing_path_answered_200 pf conn fuel m :
  plain_path (path conn) ->
  isdir pf (rootdir (cls m) ++ Get.rpath_of (path conn)) = false ->
  files (os m) !! (rootdir (cls m) ++ Get.rpath_of (path conn)) = None ->
  serve (Get.do_GET pf conn fuel) m
  = Done (access_error_reply pf conn (Get.rpath_of (path conn)))
         (Machine (os m) (cls m)
            (with_wfile (access_error_reply pf conn (Get.rpath_of (path conn)))
               (self m)))
  /\ ~ error_reply (access_error_reply pf conn (Get.rpath_of (path conn))).
Proof.
  intros Hplain Hdir Hfile. split; [|apply access_error_no_error_status].
  destruct m as [w c q]. cbn [os cls self] in *.
  assert (Hrun : Get.do_GET pf conn fuel (fresh (Machine w c q))
            = Done tt (Machine w c
                (with_wfile
                   (access_error_reply pf conn (Get.rpath_of (path conn)))
                   (with_wfile [] q)))).
  { unfold fresh. cbn [os cls self].
    rewrite (do_GET_plain _ _ _ _ Hplain).
    unfold Get.serve_path, bind, the_class, the_world. cbn [os cls].
    unfold Get.exists_, Get.isfile. cbn beta.
    repeat rewrite Hdir. repeat rewrite Hfile.
    rewrite bool_decide_eq_false_2 by (intros [? ?]; discriminate).
    cbn [orb andb negb].
    repeat rewrite Hdir. repeat rewrite Hfile.
    rewrite ?bool_decide_eq_false_2 by (intros [? ?]; discriminate).
    cbn [orb andb negb].
    apply access_error_wire. }
  rewrite (serve_run _ _ _ Hrun). reflexivity.
Qed.

Lemma missing_path_answered_200_witness :
  serve (Get.do_GET sample_platform (get "/nothing.html") 0)
        (Machine site_world Sample.class0 Sample.request0)
  = Done (access_error_reply sample_platform (get "/nothing.html")
            "/nothing.html")
         (Machine site_world Sample.class0
            (with_wfile
               (access_error_reply sample_platform (get "/nothing.html")
                  "/nothing.html") Sample.request0)).
Proof.
  apply (missing_path_answered_200 sample_platform (get "/nothing.html") 0
           (Machine site_world Sample.class0 Sample.request0)).
  - repeat split; intros H; vm_compute in H; discriminate H.
  - reflexivity.
  - vm_compute. reflexivity.
Defined.

Lemma contains_append needle p x : contains needle (p ++ needle ++ x) = true.
Proof.
  induction p as [|a p IH].
  - change (EmptyString ++ needle ++ x) with (needle ++ x).
    destruct (needle ++ x) eqn:E; cbn [contains];
      rewrite <- E, startswith_append; reflexivity.
  - change (String a p ++ needle ++ x) with (String a (p ++ needle ++ x)).
    cbn [contains]. rewrite IH. now destruct (startswith _ _).
Qed.

Lemma basename_append p x :
  contains "/" x = false -> Os.basename (p ++ "/" ++ x) = x.
Proof.
  intros Hx. induction p as [|a p IH].
  - change (EmptyString ++ "/" ++ x) with (String "/" x).
    cbn [Os.basename contains startswith]. cbn.
    now apply basename_without_slash.
  - change (String a p ++ "/" ++ x) with (String a (p ++ "/" ++ x)).
    cbn [Os.basename].
    change (String a (p ++ "/" ++ x)) with (String a p ++ "/" ++ x).
    now rewrite contains_append.
Qed.

Lemma index_is_html p :
  Get.lookup_item (Get.lower (Get.splitext_ext (p ++ "/index.html")))
    Get.content_type = Some "text/html"
  /\ Get.lookup_item (Get.lower (Get.splitext_ext (p ++ "/index.htm")))
       Get.content_type = Some "text/html".
Proof.
  unfold Get.splitext_ext.
  change (p ++ "/index.html") with (p ++ "/" ++ "index.html").
  change (p ++ "/index.htm") with (p ++ "/" ++ "index.htm").
  rewrite !basename_append by reflexivity. split; reflexivity.
Qed.

Lemma index_of_two pf w dir :
  isdir pf (dir ++ "/index.html") = false ->
  isdir pf (dir ++ "/index.htm") = false ->
  Get.index_of pf w dir ["/index.html"; "/index.htm"]
  = match files w !! (dir ++ "/index.html"),
          files w !! (dir ++ "/index.htm") with
    | Some _, _ => dir ++ "/index.html"
    | None, Some _ => dir ++ "/index.htm"
    | None, None => dir
    end.
Proof.
  intros Hd1 Hd2. cbn [Get.index_of]. cbv zeta. unfold Get.exists_.
  rewrite Hd1, Hd2. cbn [orb].
  destruct (files w !! (dir ++ "/index.html")).
  - rewrite bool_decide_eq_true_2 by eauto. reflexivity.
  - rewrite bool_decide_eq_false_2 by (intros [? ?]; discriminate).
    destruct (files w !! (dir ++ "/index.htm")).
    + rewrite bool_decide_eq_true_2 by eauto. reflexivity.
    + rewrite bool_decide_eq_false_2 by (intros [? ?]; discriminate).
      reflexivity.
Qed.

(** X18.  A path that names a directory under the root is answered with
    the index page of the directory: [index.html] when it exists, else
    [index.htm], served as [text/html]; a directory without either gets
    the access error page. *)
Theorem directory_serves_index pf conn fuel m :
  plain_path (path conn) ->
  let dir := rootdir (cls m) ++ Get.rpath_of (path conn) in
  let answered reply :=
    serve (Get.do_GET pf conn fuel) m
    = Done reply (Machine (os m) (cls m) (with_wfile reply (self m))) in
  isdir pf dir = true ->
  isdir pf (dir ++ "/index.html") = false ->
  isdir pf (dir ++ "/index.htm") = false ->
  match files (os m) !! (dir ++ "/index.html"),
        files (os m) !! (dir ++ "/index.htm") with
  | Some data, _ => answered (page_reply data)
  | None, Some data => answered (page_reply data)
  | None, None =>
      answered (access_error_reply pf conn (Get.rpath_of (path conn)))
  end.
Proof.
  intros Hplain dir answered Hdir Hd1 Hd2. subst answered. cbn beta.
  destruct m as [w c q]. cbn [os cls self] in *.
  destruct (index_is_html dir) as [T1 T2].
  assert (Hstart : Get.do_GET pf conn fuel (fresh (Machine w c q))
            = (let page := Get.index_of pf w dir ["/index.html"; "/index.htm"] in
               if andb (Get.exists_ pf w page) (Get.isfile pf w page)
               then Get.send_file page
               else Get.access_error pf conn (Get.rpath_of (path conn)))
              (Machine w c (with_wfile [] q))).
  { unfold fresh. cbn [os cls self].
    rewrite (do_GET_plain _ _ _ _ Hplain).
    unfold Get.serve_path, bind, the_class, the_world. cbn [os cls].
    fold dir.
    assert (He : Get.exists_ pf w dir = true)
      by (unfold Get.exists_; rewrite Hdir; reflexivity).
    cbv zeta. rewrite !He, !Hdir. reflexivity. }
  rewrite (index_of_two _ _ _ Hd1 Hd2) in Hstart. cbv zeta in Hstart.
  unfold Get.exists_, Get.isfile in Hstart.
  destruct (files w !! (dir ++ "/index.html")) as [data|] eqn:F1.
  - rewrite Hd1, F1 in Hstart.
    rewrite bool_decide_eq_true_2 in Hstart by eauto.
    cbn [orb andb negb] in Hstart.
    rewrite (send_file_wire _ data) in Hstart by exact F1.
    rewrite T1 in Hstart. cbn [default wfile with_wfile app] in Hstart.
    rewrite (serve_run _ _ _ Hstart). reflexivity.
  - destruct (files w !! (dir ++ "/index.htm")) as [data|] eqn:F2.
    + rewrite Hd2, F2 in Hstart.
      rewrite bool_decide_eq_true_2 in Hstart by eauto.
      cbn [orb andb negb] in Hstart.
      rewrite (send_file_wire _ data) in Hstart by exact F2.
      rewrite T2 in Hstart. cbn [default wfile with_wfile app] in Hstart.
      rewrite (serve_run _ _ _ Hstart). reflexivity.
    + rewrite Hdir in Hstart. cbn [orb andb negb] in Hstart.
      rewrite andb_false_r in Hstart.
      rewrite access_error_wire in Hstart.
      rewrite (serve_run _ _ _ Hstart). reflexivity.
Qed.

Lemma directory_serves_index_witness :
  serve (Get.do_GET sample_platform (get EmptyString) 0)
        (Machine site_world Sample.class0 Sample.request0)
  = Done (page_reply "<p>Hello, world!</p>")
         (Machine site_world Sample.class0
            (with_wfile (page_reply "<p>Hello, world!</p>") Sample.request0)).
Proof.
  apply (directory_serves_index sample_platform (get EmptyString) 0
           (Machine site_world Sample.class0 Sample.request0)).
  - repeat split; intros H; vm_compute in H; discriminate H.
  - reflexivity.
  - reflexivity.
  - reflexivity.
Defined.

End GetRequests.
